(** * Weather page ([main.js]): a shallow embedding and its verification

    The page resolves a city name with the Open-Meteo geocoding endpoint,
    fetches the current conditions for the coordinates found and writes
    formatted values into ten display elements.

    Layout of this development:
    - [JS]: the fragment of the JavaScript value model that [main.js]
      relies on (numbers, strings, property reads, coercions);
    - [Async]: a small monad for [async] functions: page state, thrown
      exceptions and suspended [fetch] calls;
    - the page and the functions of [main.js], in source order, over an
      [Engine] that stands for the built-ins left abstract;
    - sample data, the notions the statements use, and the proofs. *)

From Stdlib Require Import ZArith QArith Qround Qabs Bool String Ascii List Lia.
From Stdlib Require Import Floats.SpecFloat.
From Stdlib Require Import DecimalString DecimalZ DecimalPos DecimalFacts Lqa.
Import ListNotations.

Local Open Scope string_scope.

(** Text is kept in its UTF-8 encoding: a character outside ASCII takes
    several elements of a [string].  The program only concatenates,
    compares and trims text, and tests it (or its length) for being
    empty. *)

Module JS.

(** ** Numbers

    A JavaScript Number is an IEEE 754 binary64 value; [spec_float] is the
    Standard Library's description of one: a signed zero, a signed
    infinity, NaN, or sign, mantissa and binary exponent. *)

Definition number : Type := spec_float.

Definition prec : Z := 53.
Definition emax : Z := 1024.
Definition emin : Z := -1074.

Definition signed (s : bool) (m : positive) : Z :=
  if s then Z.neg m else Z.pos m.

Definition pow2 (e : Z) : Q :=
  if (0 <=? e)%Z then inject_Z (2 ^ e) else 1 # (2 ^ Z.to_pos (- e)).

Definition pow10 (n : Z) : Q :=
  if (0 <=? n)%Z then inject_Z (10 ^ n) else 1 # (10 ^ Z.to_pos (- n)).

(** The real number a finite Number denotes (0 for the others). *)
Definition toQ (x : number) : Q :=
  match x with
  | S754_finite s m e => inject_Z (signed s m) * pow2 e
  | _ => 0
  end.

Definition is_finite (x : number) : bool :=
  match x with
  | S754_finite _ _ _ | S754_zero _ => true
  | _ => false
  end.

Definition is_integer (q : Q) : bool := Qeq_bool (inject_Z (Qfloor q)) q.

(** An integral Number: a zero, or a finite value without fractional part. *)
Definition integral (x : number) : bool :=
  match x with
  | S754_zero _ => true
  | S754_finite _ _ _ => is_integer (toQ x)
  | _ => false
  end.

(** The Number for an integer.  An integer of at most 53 bits is a Number,
    its mantissa shifted to 53 bits.  A longer one is a Number only when
    the bits below the first 53 are zero; its mantissa is left as it is,
    so that [ofZ z] denotes [z] for every [z]. *)
Definition ofPos (s : bool) (p : positive) : number :=
  let '(m, e) := shl_align p 0 (Z.pos (digits2_pos p) - prec) in
  S754_finite s m e.

Definition ofZ (z : Z) : number :=
  match z with
  | Z0 => S754_zero false
  | Zpos p => ofPos false p
  | Zneg p => ofPos true p
  end.

(** The Number a decimal literal [n/d] of a JSON text parses to: the
    correctly rounded quotient. *)
Definition ofDecimal (n : Z) (d : positive) : number :=
  SFdiv prec emax (ofZ n) (ofZ (Z.pos d)).

(** [Number.isNaN] on a Number. *)
Definition number_isNaN (x : number) : bool :=
  match x with S754_nan => true | _ => false end.

(** [Math.round]: a non-finite or integral argument is returned as it is;
    otherwise the result is floor(x + 1/2), the nearest integer with ties
    towards +Infinity, and a zero result keeps the sign of [x]. *)
Definition Math_round (x : number) : number :=
  match x with
  | S754_finite s m e =>
      if integral x then x
      else
        let r := Qfloor (toQ x + (1 # 2)) in
        if (r =? 0)%Z then S754_zero s else ofZ r
  | _ => x
  end.

(** Decimal digits of an integer, with a minus sign when negative. *)
Definition showZ (z : Z) : string := NilZero.string_of_int (Z.to_int z).

Definition MAX_SAFE_INTEGER : Z := 2 ^ 53 - 1.

(** *** Number::toString, radix 10

    For a positive finite [x] the digits are those of the integers [n],
    [k], [s] with [k >= 1], [10^(k-1) <= s < 10^k], [s * 10^(n-k)]
    rounding to [x], [k] least, and [s * 10^(n-k)] closest to [x]. *)

(** Mantissa and exponent in canonical form: 53 bits, or exponent [emin]. *)
Definition canonical (m : positive) (e : Z) : positive * Z :=
  let extra := (Z.pos (digits2_pos m) - prec)%Z in
  if (0 <? extra)%Z
  then (Z.to_pos (Z.shiftr (Z.pos m) extra), (e + extra)%Z)
  else shl_align m e (Z.max (e + extra) emin).

(** The reals that round (to nearest, ties to even) to [m * 2^e]: the
    interval between the midpoints to the two neighbours, closed when the
    mantissa is even. *)
Definition rounding_interval (m : positive) (e : Z) : Q * Q * bool :=
  let lo :=
    if (Z.pos m =? 2 ^ (prec - 1))%Z && (emin <? e)%Z
    then inject_Z (4 * Z.pos m - 1) * pow2 (e - 2)
    else inject_Z (2 * Z.pos m - 1) * pow2 (e - 1) in
  let hi := inject_Z (2 * Z.pos m + 1) * pow2 (e - 1) in
  (lo, hi, Z.even (Z.pos m)).

Fixpoint decade_below (fuel : nat) (y : Q) (n : Z) : Z :=
  match fuel with
  | O => n
  | S fuel' =>
      if Qle_bool 1 (y * 10) then n
      else decade_below fuel' (Qred (y * 10)) (n - 1)
  end.

(** The [n] with [10^(n-1) <= x < 10^n], for [x > 0]. *)
Definition decade (x : Q) : Z :=
  if Qle_bool 1 x then Z.of_nat (String.length (showZ (Qfloor x)))
  else decade_below 400 x 0.

Definition round_half_even (t : Q) : Z :=
  let f := Qfloor t in
  match Qcompare (t - inject_Z f) (1 # 2) with
  | Lt => f
  | Gt => (f + 1)%Z
  | Eq => if Z.even f then f else (f + 1)%Z
  end.

(** The [s] of [k] digits closest to [x / 10^(n-k)] among those whose
    value rounds to [x], if there is one. *)
Definition candidate (x lo hi : Q) (closed : bool) (k n : Z) : option Z :=
  let sc := pow10 (n - k) in
  let smin0 := if closed then Qceiling (lo / sc) else (Qfloor (lo / sc) + 1)%Z in
  let smax0 := if closed then Qfloor (hi / sc) else (Qceiling (hi / sc) - 1)%Z in
  let smin := Z.max smin0 (10 ^ (k - 1)) in
  let smax := Z.min smax0 (10 ^ k - 1) in
  if (smin <=? smax)%Z
  then Some (Z.max smin (Z.min smax (round_half_even (x / sc))))
  else None.

Definition closer (x : Q) (k : Z) (a b : option (Z * Z)) : option (Z * Z) :=
  match a, b with
  | None, _ => b
  | _, None => a
  | Some (sa, na), Some (sb, nb) =>
      let da := Qabs (inject_Z sa * pow10 (na - k) - x) in
      let db := Qabs (inject_Z sb * pow10 (nb - k) - x) in
      if Qle_bool da db then a else b
  end.

Definition candidates (x lo hi : Q) (closed : bool) (k n0 : Z) : option (Z * Z) :=
  let at_n n := option_map (fun s => (s, n)) (candidate x lo hi closed k n) in
  closer x k (at_n n0) (closer x k (at_n (n0 - 1)%Z) (at_n (n0 + 1)%Z)).

Fixpoint shortest_from (fuel : nat) (x lo hi : Q) (closed : bool) (k n0 : Z)
  : Z * Z * Z :=
  match candidates x lo hi closed k n0 with
  | Some (s, n) => (s, n, k)
  | None =>
      match fuel with
      | O => (round_half_even (x / pow10 (n0 - k)), n0, k)
      | S fuel' => shortest_from fuel' x lo hi closed (k + 1) n0
      end
  end.

Definition zeros (n : Z) : string := string_of_list_ascii (repeat "0"%char (Z.to_nat n)).

Definition exponent_part (n : Z) : string :=
  "e" ++ (if (0 <=? n - 1)%Z then "+" else "-") ++ showZ (Z.abs (n - 1)).

Definition layout (digits : string) (n k : Z) : string :=
  if (k <=? n)%Z && (n <=? 21)%Z then digits ++ zeros (n - k)
  else if (0 <? n)%Z && (n <=? 21)%Z then
    substring 0 (Z.to_nat n) digits ++ "." ++ substring (Z.to_nat n) (Z.to_nat (k - n)) digits
  else if (-6 <? n)%Z && (n <=? 0)%Z then "0." ++ zeros (- n) ++ digits
  else if (k =? 1)%Z then digits ++ exponent_part n
  else substring 0 1 digits ++ "." ++ substring 1 (Z.to_nat (k - 1)) digits ++ exponent_part n.

Definition shortest (m : positive) (e : Z) : string :=
  let '(m', e') := canonical m e in
  let x := Qred (inject_Z (Z.pos m') * pow2 e') in
  let '(lo, hi, closed) := rounding_interval m' e' in
  let '(s, n, k) := shortest_from 16 x (Qred lo) (Qred hi) closed 1 (decade x) in
  layout (showZ s) n k.

(** An integer below 2^53 in magnitude is printed with all its digits:
    its neighbours are at most 1 away, so no shorter digit string rounds
    to it. *)
Definition Number_toString (x : number) : string :=
  match x with
  | S754_nan => "NaN"
  | S754_zero _ => "0"
  | S754_infinity s => if s then "-Infinity" else "Infinity"
  | S754_finite s m e =>
      let q := toQ x in
      if is_integer q && (Z.abs (Qfloor q) <=? MAX_SAFE_INTEGER)%Z
      then showZ (Qfloor q)
      else (if s then "-" else "") ++ shortest m e
  end.

(** ** Values

    The values a parsed JSON text is made of, and [undefined], which a
    read of a missing property gives. *)

#[local] Unset Elimination Schemes.

Inductive value : Type :=
| VUndefined
| VNull
| VBool (b : bool)
| VNumber (x : number)
| VString (s : string)
| VArray (elements : list value)
| VObject (properties : list (string * value)).

#[local] Set Elimination Schemes.

(** What a [throw] carries, by origin. *)
Inductive exn : Type :=
| Error (message : string)
    (* [new Error(message)], thrown by main.js *)
| TypeError (target : value) (property : string)
    (* thrown by the engine: [property] read on [undefined] or [null] *)
| NotConvertible (target : value)
    (* a TypeError thrown by the engine: [target] has no primitive value *)
| FetchRejection (message : string)
    (* the promise of [fetch] rejected: no response arrived *)
| BodyRejection (message : string).
    (* the promise of [res.json()] rejected: the body is not a JSON text *)

(** A completion: a thrown exception or a value. *)
Definition result (A : Type) : Type := (exn + A)%type.

(** The rest of an expression is evaluated with the value of its first
    part, unless that part throws. *)
Definition and_with {A B : Type} (r : result A) (f : A -> result B) : result B :=
  match r with
  | inl e => inl e
  | inr a => f a
  end.

Notation "'let*' x ':=' r 'in' k" := (and_with r (fun x => k))
  (at level 10, x name, r at level 100, k at level 200).

(** ToBoolean: the falsy values are [undefined], [null], [false], the
    zeros, NaN and the empty string. *)
Definition ToBoolean (v : value) : bool :=
  match v with
  | VUndefined | VNull => false
  | VBool b => b
  | VNumber (S754_zero _) | VNumber S754_nan => false
  | VNumber _ => true
  | VString "" => false
  | VString _ => true
  | VArray _ | VObject _ => true
  end.

(** [a || b] *)
Definition or_else (a b : value) : value := if ToBoolean a then a else b.

(** [v === null], [v === undefined], [v == null] *)
Definition is_null (v : value) : bool :=
  match v with VNull => true | _ => false end.

Definition is_undefined (v : value) : bool :=
  match v with VUndefined => true | _ => false end.

Definition nullish (v : value) : bool := is_null v || is_undefined v.

Fixpoint lookup {A : Type} (k : string) (l : list (string * A)) : option A :=
  match l with
  | [] => None
  | (k', a) :: l' => if String.eqb k k' then Some a else lookup k l'
  end.

(** [Array.prototype.join] with a comma, [item] giving the text of an
    element: the elements are converted in order. *)
Definition join (item : value -> result string) : list value -> result string :=
  fix join (l : list value) : result string :=
    match l with
    | [] => inr ""
    | [e] => item e
    | e :: l' =>
        let* first := item e in
        let* rest := join l' in
        inr (first ++ "," ++ rest)
    end.

(** Whether an object has an own property under a key. *)
Definition has_own (k : string) (properties : list (string * value)) : bool :=
  match lookup k properties with Some _ => true | None => false end.

(** ToString (and ToPrimitive before it), as a template literal, [+] with
    a string, a property key and URLSearchParams apply it.

    An array joins its elements with commas, [undefined] and [null]
    elements giving nothing.  An object of a parsed JSON text holds no
    function: one with an own property [toString] hides the method of
    [Object.prototype] behind a value that cannot be called, the inherited
    [valueOf] gives the object back, and the conversion throws a
    TypeError, also when the object is an element of an array.  Every
    other object gives ["[object Object]"]. *)
Fixpoint ToString (v : value) : result string :=
  match v with
  | VUndefined => inr "undefined"
  | VNull => inr "null"
  | VBool b => inr (if b then "true" else "false")
  | VNumber x => inr (Number_toString x)
  | VString s => inr s
  | VArray elements =>
      join (fun e => if nullish e then inr "" else ToString e) elements
  | VObject properties =>
      if has_own "toString" properties then inl (NotConvertible v)
      else inr "[object Object]"
  end.

(** A value that has a text. *)
Definition convertible (v : value) : bool :=
  match ToString v with inr _ => true | inl _ => false end.

(** Whether a property key is an array index, and which. *)
Definition array_index (k : string) : option Z :=
  match NilZero.uint_of_string k with
  | Some d => if String.eqb (showZ (Z.of_uint d)) k
              then Some (Z.of_uint d) else None
  | None => None
  end.

Definition element {A : Type} (i : Z) (l : list A) : option A :=
  if (i <? Z.of_nat (List.length l))%Z then nth_error l (Z.to_nat i) else None.

(** [v.k] and [v[k]].  The own properties of [v]; the names main.js reads
    from response data are inherited by no object, array or primitive. *)
Definition get (v : value) (k : string) : result value :=
  match v with
  | VUndefined | VNull => inl (TypeError v k)
  | VObject properties =>
      inr match lookup k properties with Some a => a | None => VUndefined end
  | VArray elements =>
      inr (if String.eqb k "length" then VNumber (ofZ (Z.of_nat (List.length elements)))
           else match array_index k with
                | Some i => match element i elements with
                            | Some e => e
                            | None => VUndefined
                            end
                | None => VUndefined
                end)
  | VString s =>
      inr (if String.eqb k "length" then VNumber (ofZ (Z.of_nat (String.length s)))
           else match array_index k with
                | Some i => match element i (list_ascii_of_string s) with
                            | Some c => VString (String c "")
                            | None => VUndefined
                            end
                | None => VUndefined
                end)
  | VBool _ | VNumber _ => inr VUndefined
  end.

(** [a === b] for a Number [b]. *)
Definition strict_equal_number (a : value) (b : number) : bool :=
  match a with
  | VNumber x =>
      match x, b with
      | S754_nan, _ | _, S754_nan => false
      | S754_infinity s, S754_infinity s' => Bool.eqb s s'
      | S754_infinity _, _ | _, S754_infinity _ => false
      | _, _ => Qeq_bool (toQ x) (toQ b)
      end
  | _ => false
  end.

(** *** String.prototype.trim

    White space and line terminators, in UTF-8: the ASCII ones, U+00A0,
    U+1680, U+2000 to U+200A, U+2028, U+2029, U+202F, U+205F, U+3000 and
    U+FEFF. *)

Definition byte (c : ascii) : N := N_of_ascii c.

Definition space1 (a : ascii) : bool :=
  orb (N.leb 9 (byte a) && N.leb (byte a) 13) (N.eqb (byte a) 32).

Definition space2 (a b : ascii) : bool :=
  N.eqb (byte a) 194 && N.eqb (byte b) 160.

Definition space3 (a b c : ascii) : bool :=
  let '(x, y, z) := (byte a, byte b, byte c) in
  (N.eqb x 225 && N.eqb y 154 && N.eqb z 128)
  || (N.eqb x 226 && N.eqb y 128
      && (N.leb 128 z && N.leb z 138 || N.eqb z 168 || N.eqb z 169 || N.eqb z 175))
  || (N.eqb x 226 && N.eqb y 129 && N.eqb z 159)
  || (N.eqb x 227 && N.eqb y 128 && N.eqb z 128)
  || (N.eqb x 239 && N.eqb y 187 && N.eqb z 191).

(** Strips white space from the front of a byte sequence; [fwd] tells
    whether the bytes are in reading order or reversed. *)
Fixpoint strip (fwd : bool) (l : list ascii) : list ascii :=
  match l with
  | [] => []
  | a :: l1 =>
      if space1 a then strip fwd l1
      else
        match l1 with
        | [] => l
        | b :: l2 =>
            if (if fwd then space2 a b else space2 b a) then strip fwd l2
            else
              match l2 with
              | [] => l
              | c :: l3 =>
                  if (if fwd then space3 a b c else space3 c b a)
                  then strip fwd l3 else l
              end
        end
  end.

Definition trim (s : string) : string :=
  string_of_list_ascii
    (rev (strip false (rev (strip true (list_ascii_of_string s))))).

(** ** Dates

    The fields of a time value (milliseconds from 1970-01-01T00:00 of the
    Gregorian calendar) that a date and time format writes: Day,
    MonthFromTime (here counted from 1), DateFromTime, HourFromTime and
    MinFromTime. *)

Definition msPerDay : Z := 86400000.
Definition msPerHour : Z := 3600000.
Definition msPerMinute : Z := 60000.

Definition Day (t : Z) : Z := (t / msPerDay)%Z.

Definition HourFromTime (t : Z) : Z := ((t / msPerHour) mod 24)%Z.

Definition MinFromTime (t : Z) : Z := ((t / msPerMinute) mod 60)%Z.

(** The calendar repeats every 146097 days; its years are taken from
    1 March, so that the leap day comes last. *)
Definition day_of_era (day : Z) : Z := ((day + 719468) mod 146097)%Z.

Definition year_of_era (doe : Z) : Z :=
  ((doe - doe / 1460 + doe / 36524 - doe / 146096) / 365)%Z.

Definition day_of_year (doe : Z) : Z :=
  let yoe := year_of_era doe in
  (doe - (365 * yoe + yoe / 4 - yoe / 100))%Z.

(** The month counted from March. *)
Definition month_of_year (doy : Z) : Z := ((5 * doy + 2) / 153)%Z.

Definition month_of_day (day : Z) : Z :=
  let mp := month_of_year (day_of_year (day_of_era day)) in
  (if mp <? 10 then mp + 3 else mp - 9)%Z.

Definition date_of_day (day : Z) : Z :=
  let doy := day_of_year (day_of_era day) in
  (doy - (153 * month_of_year doy + 2) / 5 + 1)%Z.

Definition MonthFromTime (t : Z) : Z := month_of_day (Day t).

Definition DateFromTime (t : Z) : Z := date_of_day (Day t).

(** The style ['2-digit'] for a field below 100. *)
Definition two_digits (n : Z) : string :=
  (if (n <? 10)%Z then "0" else "") ++ showZ n.

(** TimeClip: the time value of a Number, if it has one. *)
Definition TimeClip (x : number) : option Z :=
  match x with
  | S754_zero _ => Some 0%Z
  | S754_finite _ _ _ =>
      let q := toQ x in
      if Qle_bool (Qabs q) (inject_Z 8640000000000000)
      then Some (if Qle_bool 0 q then Qfloor q else Qceiling q)
      else None
  | S754_infinity _ | S754_nan => None
  end.

End JS.

(** * Asynchronous functions

    An [async] function runs until it awaits a [fetch]; the continuation
    takes what the network answers.  An action threads the page state and
    may end in a thrown exception. *)

Module Async.
Import JS.

(** A GET request: the URL without its query, and the query parameters. *)
Record request : Type := {
  url : string;
  searchParams : list (string * string);
  headers : list (string * string)
}.

(** What [res.json()] finds in the body. *)
Inductive body : Type :=
| NotJSON (message : string)
| JSON (data : value).

Record response : Type := {
  ok : bool;       (* status in the range 200-299 *)
  json : body
}.

(** How a [fetch] settles: rejected (transport failure) or fulfilled. *)
Inductive outcome : Type :=
| Failed (message : string)
| Arrived (res : response).

Inductive async (A : Type) : Type :=
| Return (a : A)
| Await (req : request) (k : outcome -> async A).

Arguments Return {A} a.
Arguments Await {A} req k.

Fixpoint and_then {A B : Type} (t : async A) (f : A -> async B) : async B :=
  match t with
  | Return a => f a
  | Await req k => Await req (fun o => and_then (k o) f)
  end.

Definition action (S A : Type) : Type := S -> async (S * result A).

Section Action.
Context {S : Type}.

Definition ret {A : Type} (a : A) : action S A :=
  fun s => Return (s, inr a).

Definition throw {A : Type} (e : exn) : action S A :=
  fun s => Return (s, inl e).

Definition bind {A B : Type} (t : action S A) (f : A -> action S B) : action S B :=
  fun s => and_then (t s) (fun '(s', r) =>
    match r with
    | inl e => Return (s', inl e)
    | inr a => f a s'
    end).

(** [try { t } catch (err) { handler err }] *)
Definition try_catch {A : Type} (t : action S A) (handler : exn -> action S A) : action S A :=
  fun s => and_then (t s) (fun '(s', r) =>
    match r with
    | inl e => handler e s'
    | inr a => Return (s', inr a)
    end).

Definition gets {A : Type} (f : S -> A) : action S A :=
  fun s => Return (s, inr (f s)).

Definition modify (f : S -> S) : action S unit :=
  fun s => Return (f s, inr tt).

(** A completion of a synchronous step. *)
Definition lift {A : Type} (r : result A) : action S A :=
  fun s => Return (s, r).

(** [await t], for the promise [t] of an [async] function that keeps no
    state of its own. *)
Definition await {A : Type} (t : unit -> async (unit * result A)) : action S A :=
  fun s => and_then (t tt) (fun '(_, r) => Return (s, r)).

(** [await fetch(url, { headers })] *)
Definition fetch (req : request) : action S response :=
  fun s => Await req (fun o =>
    Return (s, match o with
               | Failed message => inl (FetchRejection message)
               | Arrived res => inr res
               end)).

(** [await res.json()] *)
Definition res_json (res : response) : action S value :=
  match json res with
  | NotJSON message => throw (BodyRejection message)
  | JSON data => ret data
  end.

End Action.

(** A network: what each request is answered with. *)
Definition network : Type := request -> outcome.

(** Runs a computation to its end against a network. *)
Fixpoint run {A : Type} (net : network) (t : async A) : A :=
  match t with
  | Return a => a
  | Await req k => run net (k (net req))
  end.

(** The requests issued on the way, in order. *)
Fixpoint requests {A : Type} (net : network) (t : async A) : list request :=
  match t with
  | Return _ => []
  | Await req k => req :: requests net (k (net req))
  end.

(** The completion of an action that keeps no state. *)
Definition completion {A : Type} (net : network) (t : action unit A) : result A :=
  snd (run net (t tt)).

Declare Scope action_scope.
Delimit Scope action_scope with action.
Notation "x <- c ;; k" := (bind c (fun x => k))
  (at level 61, c at next level, right associativity) : action_scope.
Notation "c ;; k" := (bind c (fun _ => k))
  (at level 61, right associativity) : action_scope.

End Async.

(** * main.js *)

Import JS Async.
Local Open Scope action_scope.

(** ** The engine's part

    What the JavaScript engine and its data bring is taken as it comes:
    the conversion of a string to a Number, the parsing of a date, the
    time zones and the host's own, the text [Intl] puts between a date
    and a time in Brazilian Portuguese, the wording of the engine's own
    [TypeError]s, and the text of its built-in objects. *)

Class Engine : Type := {
  (** StringToNumber, which [Number(v)] applies to a string. *)
  StringToNumber : string -> number;
  (** [Date.parse]: the time value of a text, [None] for NaN.  A date and
      time without an offset is read in the host's time zone. *)
  Date_parse : string -> option Z;
  (** The identifier of the host's time zone. *)
  DefaultTimeZone : string;
  (** For a time zone identifier that [Intl] knows, the offset of its
      local time from UTC at each time value, in milliseconds. *)
  TimeZoneOffset : string -> option (Z -> Z);
  (** What the locale pt-BR puts between a date and a time. *)
  pt_BR_date_time_separator : string;
  (** The message of the [TypeError] for a read of [property] on a
      [target] that is [undefined] or [null]. *)
  TypeError_message : value -> string -> string;
  (** The message of the [TypeError] for a [target] without a primitive
      value. *)
  NotConvertible_message : value -> string;
  (** The text ToString gives for the built-in that [Object.prototype]
      holds under a name: the source text of a function, or
      ["[object Object]"]. *)
  native_text : string -> string
}.

(** ** The page: the elements main.js holds handles to *)

(** [textContent] of the ten elements of [ui]. *)
Record fields : Type := {
  location : string;
  obsTime : string;
  temp : string;
  code : string;
  wind : string;
  humidity : string;
  apparent : string;
  pressure : string;
  precip : string;
  cloud : string
}.

Record page : Type := {
  input_value : string;          (* input.value *)
  status_textContent : string;   (* statusEl.textContent *)
  status_className : string;     (* statusEl.className *)
  weather_hidden : bool;         (* weatherEl.classList.contains('hidden') *)
  ui : fields;
  console : list exn;            (* what console.error was given, latest first *)
  defaultPrevented : bool        (* of the submit event *)
}.

Definition with_status (text className : string) (p : page) : page :=
  {| input_value := input_value p;
     status_textContent := text;
     status_className := className;
     weather_hidden := weather_hidden p;
     ui := ui p;
     console := console p;
     defaultPrevented := defaultPrevented p |}.

Definition with_hidden (hidden : bool) (p : page) : page :=
  {| input_value := input_value p;
     status_textContent := status_textContent p;
     status_className := status_className p;
     weather_hidden := hidden;
     ui := ui p;
     console := console p;
     defaultPrevented := defaultPrevented p |}.

Definition map_ui (f : fields -> fields) (p : page) : page :=
  {| input_value := input_value p;
     status_textContent := status_textContent p;
     status_className := status_className p;
     weather_hidden := weather_hidden p;
     ui := f (ui p);
     console := console p;
     defaultPrevented := defaultPrevented p |}.

Definition map_console (f : list exn -> list exn) (p : page) : page :=
  {| input_value := input_value p;
     status_textContent := status_textContent p;
     status_className := status_className p;
     weather_hidden := weather_hidden p;
     ui := ui p;
     console := f (console p);
     defaultPrevented := defaultPrevented p |}.

Definition with_defaultPrevented (b : bool) (p : page) : page :=
  {| input_value := input_value p;
     status_textContent := status_textContent p;
     status_className := status_className p;
     weather_hidden := weather_hidden p;
     ui := ui p;
     console := console p;
     defaultPrevented := b |}.

Definition with_input_value (text : string) (p : page) : page :=
  {| input_value := text;
     status_textContent := status_textContent p;
     status_className := status_className p;
     weather_hidden := weather_hidden p;
     ui := ui p;
     console := console p;
     defaultPrevented := defaultPrevented p |}.

(** The elements of [ui], to name the one a statement writes. *)
Inductive element_id : Type :=
| Location | ObsTime | Temp | Code | Wind
| Humidity | Apparent | Pressure | Precip | Cloud.

Definition set_textContent (el : element_id) (text : string) (u : fields) : fields :=
  let pick (at_el : element_id -> bool) (old : string) :=
    if at_el el then text else old in
  {| location := pick (fun e => match e with Location => true | _ => false end) (location u);
     obsTime := pick (fun e => match e with ObsTime => true | _ => false end) (obsTime u);
     temp := pick (fun e => match e with Temp => true | _ => false end) (temp u);
     code := pick (fun e => match e with Code => true | _ => false end) (code u);
     wind := pick (fun e => match e with Wind => true | _ => false end) (wind u);
     humidity := pick (fun e => match e with Humidity => true | _ => false end) (humidity u);
     apparent := pick (fun e => match e with Apparent => true | _ => false end) (apparent u);
     pressure := pick (fun e => match e with Pressure => true | _ => false end) (pressure u);
     precip := pick (fun e => match e with Precip => true | _ => false end) (precip u);
     cloud := pick (fun e => match e with Cloud => true | _ => false end) (cloud u) |}.

(** [ui.el.textContent = text] *)
Definition assign (el : element_id) (text : string) : action page unit :=
  modify (map_ui (set_textContent el text)).

(** [ui.el.textContent = text] for an expression that may throw while it
    is evaluated: the element is written only if it does not. *)
Definition write (el : element_id) (text : result string) : action page unit :=
  text <- lift text ;; assign el text.

(** A property read as a step of an action: it throws on [undefined] and
    [null]. *)
Definition read {S : Type} (v : value) (k : string) : action S value :=
  lift (get v k).

(** ** setStatus, showWeatherSection *)

(** [type] is [None] where the call leaves the parameter out. *)
Definition setStatus (msg : value) (type : option string) : action page unit :=
  let type := match type with Some t => t | None => "info" end in
  text <- lift (ToString (or_else msg (VString ""))) ;;
  modify (with_status text ("status " ++ type)).

Definition showWeatherSection (show : bool) : action page unit :=
  modify (with_hidden (negb show)).

(** ** WEATHER_CODE_MAP *)

(** The entries of the object literal, under their numeric literals. *)
Definition WEATHER_CODES : list (Z * string) :=
  [ (0%Z, "Céu limpo");
    (1%Z, "Principalmente limpo");
    (2%Z, "Parcialmente nublado");
    (3%Z, "Nublado");
    (45%Z, "Nevoeiro");
    (48%Z, "Nevoeiro depositante");
    (51%Z, "Garoa leve");
    (53%Z, "Garoa");
    (55%Z, "Garoa intensa");
    (56%Z, "Garoa gelada leve");
    (57%Z, "Garoa gelada intensa");
    (61%Z, "Chuva fraca");
    (63%Z, "Chuva");
    (65%Z, "Chuva forte");
    (66%Z, "Chuva gelada fraca");
    (67%Z, "Chuva gelada forte");
    (71%Z, "Neve fraca");
    (73%Z, "Neve");
    (75%Z, "Neve forte");
    (77%Z, "Grãos de neve");
    (80%Z, "Aguaceiros fracos");
    (81%Z, "Aguaceiros");
    (82%Z, "Aguaceiros fortes");
    (85%Z, "Aguaceiros de neve fracos");
    (86%Z, "Aguaceiros de neve fortes");
    (95%Z, "Trovoadas");
    (96%Z, "Trovoadas com granizo leve");
    (99%Z, "Trovoadas com granizo forte") ].

(** The object: its property keys are strings, those of the numeric
    literals. *)
Definition WEATHER_CODE_MAP : list (string * string) :=
  map (fun '(k, description) => (showZ k, description)) WEATHER_CODES.

(** The names every object inherits from [Object.prototype]. *)
Definition Object_prototype_names : list string :=
  [ "constructor"; "__defineGetter__"; "__defineSetter__"; "hasOwnProperty";
    "__lookupGetter__"; "__lookupSetter__"; "isPrototypeOf";
    "propertyIsEnumerable"; "toString"; "valueOf"; "__proto__";
    "toLocaleString" ].

(** ** geocodeCity, getWeather *)

Definition set_param (k v : string) (params : list (string * string))
  : list (string * string) :=
  if existsb (fun kv => String.eqb (fst kv) k) params
  then map (fun kv => if String.eqb (fst kv) k then (k, v) else kv) params
  else params ++ [(k, v)].

Definition accept_json : list (string * string) := [("Accept", "application/json")].

(** What [geocodeCity] returns. *)
Record place : Type := {
  name : string;
  latitude : value;
  longitude : value;
  timezone : value
}.

(** The request [geocodeCity] builds.  [url.searchParams.set] converts
    its value to a string, and throws if it has none. *)
Definition geocode_request (name : value) : result request :=
  let* name := ToString name in
  inr {| url := "https://geocoding-api.open-meteo.com/v1/search";
         searchParams :=
           set_param "count" "1"
             (set_param "language" "pt"
                (set_param "name" name []));
         headers := accept_json |}.

Definition geocodeCity (name : value) : action unit place :=
  req <- lift (geocode_request name) ;;
  res <- fetch req ;;
  if negb (ok res) then throw (Error "Falha ao buscar geocodificação") else
  data <- res_json res ;;
  results <- read data "results" ;;
  none <- (if negb (ToBoolean results) then ret true
           else length <- read results "length" ;;
                ret (strict_equal_number length (ofZ 0))) ;;
  if (none : bool) then throw (Error "Cidade não encontrada") else
  r <- read results "0" ;;
  r_name <- read r "name" ;;
  name <- lift (ToString r_name) ;;
  r_admin1 <- read r "admin1" ;;
  admin1 <- lift (if ToBoolean r_admin1
                  then let* admin1 := ToString r_admin1 in inr (", " ++ admin1)
                  else inr "") ;;
  r_country <- read r "country" ;;
  country <- lift (if ToBoolean r_country
                   then let* country := ToString r_country in inr (" - " ++ country)
                   else inr "") ;;
  r_latitude <- read r "latitude" ;;
  r_longitude <- read r "longitude" ;;
  r_timezone <- read r "timezone" ;;
  ret {| name := name ++ admin1 ++ country;
         latitude := r_latitude;
         longitude := r_longitude;
         timezone := r_timezone |}.

Definition current_fields : list string :=
  [ "temperature_2m"; "apparent_temperature"; "relative_humidity_2m";
    "pressure_msl"; "precipitation"; "cloud_cover"; "weather_code";
    "wind_speed_10m"; "wind_direction_10m" ].

(** The request [getWeather] builds: the three arguments are converted in
    the order of the calls of [url.searchParams.set]. *)
Definition weather_request (lat lon timezone : value) : result request :=
  let* latitude := ToString lat in
  let* longitude := ToString lon in
  let* timezone := ToString (or_else timezone (VString "auto")) in
  inr {| url := "https://api.open-meteo.com/v1/forecast";
         searchParams :=
           set_param "current" (String.concat "," current_fields)
             (set_param "timezone" timezone
                (set_param "longitude" longitude
                   (set_param "latitude" latitude [])));
         headers := accept_json |}.

Definition getWeather (lat lon timezone : value) : action unit value :=
  req <- lift (weather_request lat lon timezone) ;;
  res <- fetch req ;;
  if negb (ok res) then throw (Error "Falha ao buscar clima") else
  data <- res_json res ;;
  ret data.

Section Main.
Context `{Engine}.

(** What line 128 reads and writes:
    [ui.code.textContent = WEATHER_CODE_MAP[code] || `Código ${code}`].
    The key of the read is the text of [code]; the read finds an own
    property of the table, or a built-in that the table inherits (truthy,
    and written as its text), or [undefined]. *)
Definition weather_code_text (code : value) : result string :=
  let* key := ToString code in
  match lookup key WEATHER_CODE_MAP with
  | Some description =>
      ToString (or_else (VString description) (VString ("Código " ++ key)))
  | None =>
      if existsb (String.eqb key) Object_prototype_names then inr (native_text key)
      else ToString (or_else VUndefined (VString ("Código " ++ key)))
  end.

(** [err.message] *)
Definition message (err : exn) : string :=
  match err with
  | Error m | FetchRejection m | BodyRejection m => m
  | TypeError target property => TypeError_message target property
  | NotConvertible target => NotConvertible_message target
  end.

(** [Number(v)] *)
Definition ToNumber (v : value) : result number :=
  match v with
  | VUndefined => inr S754_nan
  | VNull => inr (S754_zero false)
  | VBool b => inr (if b then ofZ 1 else S754_zero false)
  | VNumber x => inr x
  | VString s => inr (StringToNumber s)
  | VArray _ | VObject _ => let* s := ToString v in inr (StringToNumber s)
  end.

(** [Number.isNaN(v)]: no coercion, only the Number NaN. *)
Definition Number_isNaN (v : value) : bool :=
  match v with VNumber x => number_isNaN x | _ => false end.

(** ** formatTimeISOToLocal, formatNumber *)

(** [new Date(v)]: the time value of the date, [None] for an invalid
    date.  A string is parsed, any other value gives its Number. *)
Definition new_Date (v : value) : result (option Z) :=
  match v with
  | VString s => inr (Date_parse s)
  | VArray _ | VObject _ => let* s := ToString v in inr (Date_parse s)
  | _ => let* x := ToNumber v in inr (TimeClip x)
  end.

(** The text of a local time under the options [day], [month], [hour] and
    [minute], all ['2-digit'], in the locale pt-BR. *)
Definition day_month_hour_minute (t : Z) : string :=
  two_digits (DateFromTime t) ++ "/" ++ two_digits (MonthFromTime t)
  ++ pt_BR_date_time_separator
  ++ two_digits (HourFromTime t) ++ ":" ++ two_digits (MinFromTime t).

(** The option [timeZone]: left [undefined] it is the host's time zone;
    any other value is converted to a string, which has to name a time
    zone. *)
Definition time_zone (tz : value) : option (Z -> Z) :=
  match tz with
  | VUndefined => TimeZoneOffset DefaultTimeZone
  | _ => match ToString tz with
         | inr identifier => TimeZoneOffset identifier
         | inl _ => None
         end
  end.

(** [date.toLocaleString('pt-BR', { timeZone: tz, hour: '2-digit', minute:
    '2-digit', day: '2-digit', month: '2-digit' })]: the text, or [None]
    when the call throws.  An invalid date is answered before the options
    are looked at. *)
Definition toLocaleString (date : option Z) (tz : value) : option string :=
  match date with
  | None => Some "Invalid Date"
  | Some t =>
      match time_zone tz with
      | Some offset => Some (day_month_hour_minute (t + offset t))
      | None => None
      end
  end.

Definition formatTimeISOToLocal (iso tz : value) : value :=
  if negb (ToBoolean iso) then VString "—"
  else
    match new_Date iso with
    | inr date =>
        match toLocaleString date tz with
        | Some text => VString text
        | None => iso
        end
    | inl _ => iso
    end.

Definition formatNumber (v : value) (unit : string) : result string :=
  if is_null v || is_undefined v || Number_isNaN v then inr "—"
  else let* x := ToNumber v in
       inr (Number_toString (Math_round x) ++ unit).

(** ** updateUI

    The statements run in order: one that throws leaves the elements
    before it written and those after it as they were. *)

Definition updateUI (city : place) (weather : value) : action page unit :=
  current <- read weather "current" ;;
  timezone <- read weather "timezone" ;;
  assign Location (name city) ;;
  time <- read current "time" ;;
  write ObsTime (let* time := ToString (formatTimeISOToLocal time timezone) in
                 inr ("Atualizado: " ++ time)) ;;
  temperature_2m <- read current "temperature_2m" ;;
  write Temp (formatNumber temperature_2m "°C") ;;
  weather_code <- read current "weather_code" ;;
  write Code (weather_code_text weather_code) ;;
  wind_speed_10m <- read current "wind_speed_10m" ;;
  wind_direction_10m <- read current "wind_direction_10m" ;;
  write Wind (let* speed := formatNumber wind_speed_10m " km/h" in
              let* direction := ToString (or_else wind_direction_10m (VString "—")) in
              inr (speed ++ " (" ++ direction ++ "°)")) ;;
  relative_humidity_2m <- read current "relative_humidity_2m" ;;
  write Humidity (formatNumber relative_humidity_2m "%") ;;
  apparent_temperature <- read current "apparent_temperature" ;;
  write Apparent (formatNumber apparent_temperature "°C") ;;
  pressure_msl <- read current "pressure_msl" ;;
  write Pressure (formatNumber pressure_msl " hPa") ;;
  precipitation <- read current "precipitation" ;;
  write Precip (let* precipitation :=
                  ToString (if negb (nullish precipitation) then precipitation
                            else VString "—") in
                inr (precipitation ++ " mm")) ;;
  cloud_cover <- read current "cloud_cover" ;;
  write Cloud (formatNumber cloud_cover "%").

(** ** handleSearch *)

Definition handleSearch : action page unit :=
  modify (with_defaultPrevented true) ;;
  q <- gets (fun p => trim (input_value p)) ;;
  if negb (ToBoolean (VString q)) then ret tt else
  setStatus (VString "Buscando cidade…") (Some "info") ;;
  showWeatherSection false ;;
  try_catch
    (city <- await (geocodeCity (VString q)) ;;
     setStatus (VString "Buscando clima…") (Some "info") ;;
     weather <- await (getWeather (latitude city) (longitude city) (timezone city)) ;;
     updateUI city weather ;;
     setStatus (VString "") None ;;
     showWeatherSection true)
    (fun err =>
       modify (map_console (cons err)) ;;
       setStatus (or_else (VString (message err)) (VString "Erro ao buscar dados"))
                 (Some "error") ;;
       showWeatherSection false).

(** ** The listeners

    [form.addEventListener('submit', handleSearch)] makes [handleSearch]
    the listener of the form's submit event.

    The listener of [DOMContentLoaded] fills an empty input with the
    default city and dispatches a submit event of its own.  That event is
    new and not cancelable: [preventDefault] leaves it as it is, and the
    flag the page keeps for the form's own submit event stays what it
    was. *)

Definition defaultCity : string := "São Paulo".

(** [form.dispatchEvent(new Event('submit'))] *)
Definition dispatch_submit : action page unit :=
  fun p =>
    and_then (handleSearch p)
      (fun '(p', r) => Return (with_defaultPrevented (defaultPrevented p) p', r)).

Definition onDOMContentLoaded : action page unit :=
  value <- gets input_value ;;
  (if negb (ToBoolean (VString value)) then modify (with_input_value defaultCity)
   else ret tt) ;;
  dispatch_submit.

End Main.

(** * Sample data

    An engine, two response bodies and a page, for the concrete runs. *)

Module Sample.

(** Decimal literals with an optional sign and fraction, and the empty
    text; every other text is taken as not a number. *)
Definition split_at_point (s : string) : string * string :=
  match index 0 "." s with
  | Some i => (substring 0 i s, substring (S i) (String.length s - S i) s)
  | None => (s, "")
  end.

Definition decimal_StringToNumber (s : string) : number :=
  if String.eqb s "" then S754_zero false
  else
    let '(negative, digits) :=
      match s with
      | String "-" s' => (true, s')
      | _ => (false, s)
      end in
    let '(whole, fraction) := split_at_point digits in
    match NilZero.uint_of_string (whole ++ fraction) with
    | Some d =>
        if String.eqb whole "" then S754_nan
        else
          let n := Z.of_uint d in
          let x := SFdiv prec emax (ofZ n)
                     (ofZ (10 ^ Z.of_nat (String.length fraction))) in
          if negative then SFopp x else x
    | None => S754_nan
    end.

(** The host is in São Paulo, where local time is three hours behind UTC;
    one text is known to [Date.parse], and two time zones to [Intl]. *)
Definition sample_Date_parse (s : string) : option Z :=
  if String.eqb s "2026-11-02T06:45" then Some 1793612700000%Z else None.

Definition sample_TimeZoneOffset (identifier : string) : option (Z -> Z) :=
  if String.eqb identifier "America/Sao_Paulo" then Some (fun _ => (-10800000)%Z)
  else if String.eqb identifier "UTC" then Some (fun _ => 0%Z)
  else None.

Definition v8_TypeError_message (target : value) (property : string) : string :=
  let text := match target with VNull => "null" | _ => "undefined" end in
  if String.eqb property "current"
  then "Cannot destructure property 'current' of 'weather' as it is " ++ text ++ "."
  else "Cannot read properties of " ++ text ++ " (reading '" ++ property ++ "')".

Definition v8_NotConvertible_message (target : value) : string :=
  "Cannot convert object to primitive value".

Definition v8_native_text (key : string) : string :=
  if String.eqb key "__proto__" then "[object Object]"
  else if String.eqb key "constructor" then "function Object() { [native code] }"
  else "function " ++ key ++ "() { [native code] }".

Definition engine : Engine :=
  {| StringToNumber := decimal_StringToNumber;
     Date_parse := sample_Date_parse;
     DefaultTimeZone := "America/Sao_Paulo";
     TimeZoneOffset := sample_TimeZoneOffset;
     pt_BR_date_time_separator := ", ";
     TypeError_message := v8_TypeError_message;
     NotConvertible_message := v8_NotConvertible_message;
     native_text := v8_native_text |}.

Definition sao_paulo : value :=
  VObject [ ("name", VString "São Paulo");
            ("admin1", VString "SP");
            ("country", VString "Brazil");
            ("latitude", VNumber (ofDecimal (-235475) 10000));
            ("longitude", VNumber (ofDecimal (-4663611) 100000));
            ("timezone", VString "America/Sao_Paulo") ].

Definition geocoding_body : value := VObject [ ("results", VArray [sao_paulo]) ].

Definition current : value :=
  VObject [ ("time", VString "2026-11-02T06:45");
            ("temperature_2m", VNumber (ofDecimal 216 10));
            ("apparent_temperature", VNumber (ofDecimal 224 10));
            ("relative_humidity_2m", VNumber (ofZ 78));
            ("pressure_msl", VNumber (ofDecimal 10163 10));
            ("precipitation", VNumber (ofDecimal 3 10));
            ("cloud_cover", VNumber (ofZ 100));
            ("weather_code", VNumber (ofZ 3));
            ("wind_speed_10m", VNumber (ofDecimal 72 10));
            ("wind_direction_10m", VNumber (ofZ 0)) ].

Definition weather_body : value :=
  VObject [ ("timezone", VString "America/Sao_Paulo"); ("current", current) ].

Definition fulfilled (data : value) : outcome :=
  Arrived {| ok := true; json := JSON data |}.

(** Both endpoints answer. *)
Definition net : network :=
  fun req =>
    if String.eqb (url req) "https://api.open-meteo.com/v1/forecast"
    then fulfilled weather_body
    else fulfilled geocoding_body.

(** The geocoding endpoint finds nothing. *)
Definition net_no_match : network :=
  fun _ => fulfilled (VObject [ ("generationtime_ms", VNumber (ofDecimal 5 10)) ]).

(** A gateway answers 200 with a page that is no JSON text. *)
Definition net_portal : network :=
  fun _ => Arrived {| ok := true; json := NotJSON "Unexpected token '<'" |}.

(** No connection, and an error without a message. *)
Definition net_down : network := fun _ => Failed "".

(** Every request is answered with status 503. *)
Definition net_refused : network :=
  fun _ => Arrived {| ok := false; json := NotJSON "Unexpected token 'S'" |}.

(** The geocoding endpoint answers as in [net]; the weather endpoint
    answers with [data]. *)
Definition net_with_weather (data : value) : network :=
  fun req =>
    if String.eqb (url req) "https://api.open-meteo.com/v1/forecast"
    then fulfilled data
    else fulfilled geocoding_body.

(** A payload without [current], and one whose [current] is empty. *)
Definition no_current : value := VObject [ ("timezone", VString "America/Sao_Paulo") ].

Definition empty_current : value :=
  VObject [ ("timezone", VString "America/Sao_Paulo"); ("current", VObject []) ].

(** A value without a text: an object with an own property [toString]. *)
Definition opaque : value := VObject [ ("toString", VNull) ].

(** [current] with one property replaced. *)
Definition current_with (k : string) (v : value) : value :=
  match current with
  | VObject properties =>
      VObject (map (fun kv => if String.eqb (fst kv) k then (k, v) else kv) properties)
  | _ => current
  end.

Definition weather_with (k : string) (v : value) : value :=
  VObject [ ("timezone", VString "America/Sao_Paulo"); ("current", current_with k v) ].

Definition blank : fields :=
  {| location := "—"; obsTime := "—"; temp := "—"; code := "—"; wind := "—";
     humidity := "—"; apparent := "—"; pressure := "—"; precip := "—";
     cloud := "—" |}.

Definition page_with (text : string) : page :=
  {| input_value := text;
     status_textContent := "";
     status_className := "status";
     weather_hidden := true;
     ui := blank;
     console := [];
     defaultPrevented := false |}.

Definition city : place :=
  {| name := "São Paulo, SP - Brazil";
     latitude := VNumber (ofDecimal (-235475) 10000);
     longitude := VNumber (ofDecimal (-4663611) 100000);
     timezone := VString "America/Sao_Paulo" |}.

End Sample.

(** * Notions of the statements *)

(** The description the table holds for an integer code. *)
Definition description_of (z : Z) : option string :=
  option_map snd (find (fun kd => (fst kd =? z)%Z) WEATHER_CODES).

(** The value of a property read that does not throw. *)
Definition field (v : value) (k : string) : value :=
  match get v k with
  | inr a => a
  | inl _ => VUndefined
  end.

(** The segment a template literal adds for an optional part. *)
Definition segment (separator : string) (v : value) : result string :=
  if ToBoolean v then let* text := ToString v in inr (separator ++ text)
  else inr "".

(** The place made of a result [r]. *)
Definition place_of (r : value) : result place :=
  let* name := ToString (field r "name") in
  let* admin1 := segment ", " (field r "admin1") in
  let* country := segment " - " (field r "country") in
  inr {| name := name ++ admin1 ++ country;
         latitude := field r "latitude";
         longitude := field r "longitude";
         timezone := field r "timezone" |}.

(** The responses of the geocoding endpoint, by what they hold. *)
Inductive geocode_case : Type :=
| Unreachable (message : string)  (* no response *)
| Refused                         (* a status outside 200-299 *)
| Unreadable (message : string)   (* a body that is no JSON text *)
| NoData (data : value)           (* the body [null] *)
| NoMatch                         (* [results] falsy or of length 0 *)
| NoFirst (r : value)             (* [results[0]] undefined or null *)
| Match (r : value).

Definition classify (o : outcome) : geocode_case :=
  match o with
  | Failed message => Unreachable message
  | Arrived res =>
      if negb (ok res) then Refused
      else
        match json res with
        | NotJSON message => Unreadable message
        | JSON data =>
            if nullish data then NoData data
            else
              let results := field data "results" in
              if negb (ToBoolean results)
                 || strict_equal_number (field results "length") (ofZ 0)
              then NoMatch
              else
                let r := field results "0" in
                if nullish r then NoFirst r else Match r
        end
  end.

(** The error classes of the specification, read on what main.js throws. *)
Definition NotFoundError (e : exn) : Prop := e = Error "Cidade não encontrada".

Definition NetworkError (e : exn) : Prop :=
  e = Error "Falha ao buscar geocodificação" \/ exists message, e = FetchRejection message.

(** A successful response with a missing or empty [results] array. *)
Definition zero_results (o : outcome) : Prop :=
  exists data, o = Arrived {| ok := true; json := JSON data |} /\
    (get data "results" = inr VUndefined \/ get data "results" = inr (VArray [])).

(** A response with a status in 200-299 whose body is the JSON text of
    [data]. *)
Definition answered (o : outcome) (data : value) : Prop :=
  exists res, o = Arrived res /\ ok res = true /\ json res = JSON data.

(** [data] is not [null], and [data.results] is falsy (missing, [null],
    [false], a zero, the empty string) or has a [length] that is 0. *)
Definition without_results (data : value) : Prop :=
  nullish data = false /\
  (ToBoolean (field data "results") = false \/
   strict_equal_number (field (field data "results") "length") (ofZ 0) = true).

(** [data] is not [null], [data.results] is truthy with a [length] other
    than 0, and [r] is [data.results[0]]. *)
Definition first_result (data r : value) : Prop :=
  nullish data = false /\
  ToBoolean (field data "results") = true /\
  strict_equal_number (field (field data "results") "length") (ofZ 0) = false /\
  field (field data "results") "0" = r.

(** A part of the place name that can be written: it has a text, unless
    it is optional and falsy. *)
Definition writable (optional : bool) (v : value) : bool :=
  (optional && negb (ToBoolean v)) || convertible v.

(** A result whose [name], [admin1] and [country] can be written. *)
Definition nameable (r : value) : bool :=
  writable false (field r "name") && writable true (field r "admin1")
  && writable true (field r "country").

(** The HTTP call did not succeed: no response, or a status outside
    200-299. *)
Definition call_failed (o : outcome) : Prop :=
  (exists message, o = Failed message) \/ (exists res, o = Arrived res /\ ok res = false).

(** A text that is empty or starts as the text of a Number does: with a
    digit, a minus sign, or the first letter of NaN or Infinity. *)
Definition numeric_char (c : ascii) : bool :=
  (N.leb 48 (byte c) && N.leb (byte c) 57)
  || Ascii.eqb c "-" || Ascii.eqb c "N" || Ascii.eqb c "I".

Definition numeric_head (s : string) : bool :=
  match s with
  | EmptyString => false
  | String c _ => numeric_char c
  end.

Definition numeric_or_empty (s : string) : bool :=
  match s with
  | EmptyString => true
  | String c _ => numeric_char c
  end.

(** A Number that is neither a zero nor NaN. *)
Definition nonzero (x : number) : bool :=
  match x with
  | S754_finite _ _ _ | S754_infinity _ => true
  | S754_zero _ | S754_nan => false
  end.

Section Notions.
Context `{Engine}.

(** What [updateUI] writes, element by element, when every text can be
    made; the first conversion that throws otherwise. *)
Definition rendered (city : place) (weather : value) : result fields :=
  let current := field weather "current" in
  let direction := field current "wind_direction_10m" in
  let precipitation := field current "precipitation" in
  let* time := ToString (formatTimeISOToLocal (field current "time")
                                              (field weather "timezone")) in
  let* temp := formatNumber (field current "temperature_2m") "°C" in
  let* code := weather_code_text (field current "weather_code") in
  let* speed := formatNumber (field current "wind_speed_10m") " km/h" in
  let* direction := ToString (or_else direction (VString "—")) in
  let* humidity := formatNumber (field current "relative_humidity_2m") "%" in
  let* apparent := formatNumber (field current "apparent_temperature") "°C" in
  let* pressure := formatNumber (field current "pressure_msl") " hPa" in
  let* precipitation := ToString (if negb (nullish precipitation)
                                  then precipitation else VString "—") in
  let* cloud := formatNumber (field current "cloud_cover") "%" in
  inr {| location := name city;
         obsTime := "Atualizado: " ++ time;
         temp := temp;
         code := code;
         wind := speed ++ " (" ++ direction ++ "°)";
         humidity := humidity;
         apparent := apparent;
         pressure := pressure;
         precip := precipitation ++ " mm";
         cloud := cloud |}.

(** The rendering in which every numeric value goes through
    [formatNumber], to compare [updateUI] with. *)
Definition rendered_by_formatter (city : place) (weather : value) : result fields :=
  let current := field weather "current" in
  let* time := ToString (formatTimeISOToLocal (field current "time")
                                              (field weather "timezone")) in
  let* temp := formatNumber (field current "temperature_2m") "°C" in
  let* code := weather_code_text (field current "weather_code") in
  let* speed := formatNumber (field current "wind_speed_10m") " km/h" in
  let* direction := formatNumber (field current "wind_direction_10m") "" in
  let* humidity := formatNumber (field current "relative_humidity_2m") "%" in
  let* apparent := formatNumber (field current "apparent_temperature") "°C" in
  let* pressure := formatNumber (field current "pressure_msl") " hPa" in
  let* precipitation := formatNumber (field current "precipitation") " mm" in
  let* cloud := formatNumber (field current "cloud_cover") "%" in
  inr {| location := name city;
         obsTime := "Atualizado: " ++ time;
         temp := temp;
         code := code;
         wind := speed ++ " (" ++ direction ++ "°)";
         humidity := humidity;
         apparent := apparent;
         pressure := pressure;
         precip := precipitation;
         cloud := cloud |}.

(** The text the [catch] block gives the status element. *)
Definition failure_text (err : exn) : string :=
  if String.eqb (message err) "" then "Erro ao buscar dados" else message err.

(** The page while the geocoding request is out, and while the weather
    request is. *)
Definition searching_city (p : page) : page :=
  with_hidden true
    (with_status "Buscando cidade…" "status info" (with_defaultPrevented true p)).

Definition searching_weather (p : page) : page :=
  with_status "Buscando clima…" "status info" (searching_city p).

(** The page the [catch] block leaves. *)
Definition failed (err : exn) (p : page) : page :=
  with_hidden true
    (with_status (failure_text err) "status error" (map_console (cons err) p)).

Definition displaying (p : page) : page :=
  with_hidden false (with_status "" "status info" p).

End Notions.

(** ** The calendar, to state what a date and time format writes *)

(** The month and the date of a day of the era, as [month_of_day] and
    [date_of_day] compute them from it. *)
Definition month_and_date (doe : Z) : Z * Z :=
  let doy := day_of_year doe in
  let mp := month_of_year doy in
  ((if mp <? 10 then mp + 3 else mp - 9)%Z, (doy - (153 * mp + 2) / 5 + 1)%Z).

(** The number of days of a month; February has 28 or 29. *)
Definition month_ends (month date : Z) : bool :=
  if (month =? 2)%Z then (date =? 28)%Z || (date =? 29)%Z
  else if (month =? 4)%Z || (month =? 6)%Z || (month =? 9)%Z || (month =? 11)%Z
       then (date =? 30)%Z
       else (date =? 31)%Z.

(** From one day to the next the date goes up by one within the month, or
    the month ends and the next one starts on its first. *)
Definition next_day (today tomorrow : Z * Z) : bool :=
  let '(month, date) := today in
  let '(month', date') := tomorrow in
  (1 <=? month)%Z && (month <=? 12)%Z && (1 <=? date)%Z && (date <=? 31)%Z
  && (((month' =? month)%Z && (date' =? date + 1)%Z
       && negb ((month =? 2)%Z && (29 <? date')%Z) && (date' <=? 31)%Z)
      || (month_ends month date && (date' =? 1)%Z && (month' =? month mod 12 + 1)%Z)).

Fixpoint days_from (today : Z * Z) (doe : Z) (n : nat) : bool :=
  match n with
  | O => true
  | S n' =>
      let tomorrow := month_and_date (doe + 1) in
      next_day today tomorrow && days_from tomorrow (doe + 1) n'
  end.

Definition days_of_era : nat := Z.to_nat 146096.

(** ** The payloads

    A payload that [updateUI] can display: it has a [current] object, and
    the time and the nine values of it have a text. *)
Definition has_text (current : value) (k : string) : bool :=
  convertible (field current k).

Definition renderable (weather : value) : bool :=
  negb (nullish weather) && negb (nullish (field weather "current"))
  && forallb (has_text (field weather "current")) ("time" :: current_fields).

(** A payload on which [updateUI] gets as far as the wind field: before
    it come the time, the temperature and the weather code, and in it the
    wind speed. *)
Definition reaches_wind (weather : value) : bool :=
  negb (nullish weather) && negb (nullish (field weather "current"))
  && forallb (has_text (field weather "current"))
       [ "time"; "temperature_2m"; "weather_code"; "wind_speed_10m" ].

(** * Proofs *)

(** ** Conversions *)

Lemma join_throws (item : value -> result string) (P : exn -> Prop) (l : list value) :
  Forall (fun v => forall e, item v = inl e -> P e) l ->
  forall e, join item l = inl e -> P e.
Proof.
  induction 1 as [|a l A _ IH]; [discriminate|].
  intros e. simpl. destruct l as [|b l]; [apply A|].
  unfold and_with.
  destruct (item a) as [err|first].
  - intros [= <-]. exact (A err eq_refl).
  - destruct (join item (b :: l)) as [err|rest] eqn:J; [|discriminate].
    intros [= <-]. apply IH. reflexivity.
Qed.

(** The only error of a conversion is that of a value without a primitive
    value. *)
Lemma ToString_throws :
  forall (v : value) (e : exn),
    ToString v = inl e -> exists target, e = NotConvertible target.
Proof.
  fix IH 1. intros [ | |b|x|s|elements|properties] e; simpl; try discriminate.
  - revert e.
    apply (join_throws _ (fun e => exists target, e = NotConvertible target)).
    induction elements as [|a l IHl]; constructor; [|exact IHl].
    intros err. destruct (nullish a); [discriminate|apply IH].
  - destruct (has_own "toString" properties); [|discriminate].
    intros [= <-]. eauto.
Qed.

(** A falsy value is a primitive, and has a text. *)
Lemma falsy_convertible (v : value) : ToBoolean v = false -> convertible v = true.
Proof. destruct v; try discriminate; reflexivity. Qed.

Lemma nullish_convertible (v : value) : nullish v = true -> convertible v = true.
Proof. destruct v; try discriminate; reflexivity. Qed.

Lemma convertible_text (v : value) :
  convertible v = true <-> exists text, ToString v = inr text.
Proof.
  unfold convertible. destruct (ToString v) as [e|text].
  - split; [discriminate|intros [t E]; discriminate E].
  - split; eauto.
Qed.

(** The coercions and the functions of main.js are kept folded while an
    action is stepped through. *)

Arguments get : simpl never.
Arguments ToBoolean : simpl never.
Arguments strict_equal_number : simpl never.
Arguments ToString : simpl never.
Arguments nullish : simpl never.
Arguments trim : simpl never.
Arguments weather_code_text : simpl never.
Arguments formatNumber : simpl never.
Arguments formatTimeISOToLocal : simpl never.
Arguments updateUI : simpl never.
Arguments geocodeCity : simpl never.
Arguments getWeather : simpl never.
Arguments try_catch : simpl never.
Arguments await : simpl never.

Ltac read_step :=
  match goal with
  | |- context [match get ?v ?k with _ => _ end] =>
      destruct (get v k); cbn; try reflexivity
  end.

(** ** Numbers *)

Lemma signed_shift (s : bool) (p k : positive) :
  signed s (Pos.iter xO p k) = (signed s p * Z.pos (2 ^ k))%Z.
Proof.
  assert (H : Z.pos (Pos.iter xO p k) = (Z.pos p * Z.pos (2 ^ k))%Z).
  { change (Pos.iter xO p k) with (shift_pos k p).
    rewrite shift_pos_correct, Z.pow_pos_fold, Pos2Z.inj_pow.
    change (Z.pos 2) with 2%Z. lia. }
  destruct s; simpl signed.
  - change (Z.neg (Pos.iter xO p k)) with (- Z.pos (Pos.iter xO p k))%Z.
    rewrite H. change (Z.neg p) with (- Z.pos p)%Z. lia.
  - exact H.
Qed.

Lemma toQ_ofPos (s : bool) (p : positive) :
  toQ (ofPos s p) == inject_Z (signed s p).
Proof.
  unfold ofPos, shl_align.
  destruct (Z.pos (digits2_pos p) - prec - 0)%Z as [|k|k] eqn:E.
  - simpl. unfold pow2. simpl. unfold Qeq. simpl. lia.
  - simpl. unfold pow2. simpl. unfold Qeq. simpl. lia.
  - assert (E' : (Z.pos (digits2_pos p) - prec)%Z = Z.neg k) by lia.
    rewrite E'. simpl toQ. unfold pow2. simpl.
    rewrite signed_shift. unfold Qeq. simpl. lia.
Qed.

(** [ofZ z] denotes [z]. *)
Lemma toQ_ofZ (z : Z) : toQ (ofZ z) == inject_Z z.
Proof.
  destruct z; simpl ofZ.
  - reflexivity.
  - apply (toQ_ofPos false).
  - apply (toQ_ofPos true).
Qed.

Lemma is_integer_inject (q : Q) (z : Z) :
  q == inject_Z z -> is_integer q = true /\ Qfloor q = z.
Proof.
  intros E. assert (F : Qfloor q = z) by (rewrite E; apply Qfloor_Z).
  split; [|exact F].
  unfold is_integer. rewrite F. apply Qeq_bool_iff. symmetry. exact E.
Qed.

Lemma ofPos_finite (s : bool) (p : positive) :
  exists m e, ofPos s p = S754_finite s m e.
Proof. unfold ofPos. destruct (shl_align _ _ _). eauto. Qed.

(** A safe integer prints as its decimal digits. *)
Lemma Number_toString_ofZ (z : Z) :
  (Z.abs z <= MAX_SAFE_INTEGER)%Z -> Number_toString (ofZ z) = showZ z.
Proof.
  intros B. destruct (is_integer_inject _ _ (toQ_ofZ z)) as [I F].
  apply Z.leb_le in B.
  destruct z as [|p|p]; [reflexivity| |]; simpl ofZ in *.
  - destruct (ofPos_finite false p) as (m & e & E). rewrite E in *.
    unfold Number_toString. rewrite I, F, B. reflexivity.
  - destruct (ofPos_finite true p) as (m & e & E). rewrite E in *.
    unfold Number_toString. rewrite I, F, B. reflexivity.
Qed.

Lemma to_int_nonnil (z : Z) :
  Z.to_int z <> Decimal.Pos Decimal.Nil /\ Z.to_int z <> Decimal.Neg Decimal.Nil.
Proof.
  destruct z; simpl; split; try discriminate;
    intros E; injection E; apply Unsigned.to_uint_nonnil.
Qed.

(** Different integers have different digits. *)
Lemma showZ_inj (a b : Z) : showZ a = showZ b -> a = b.
Proof.
  unfold showZ. intros E. apply to_int_inj.
  assert (S : Some (Z.to_int a) = Some (Z.to_int b)).
  { rewrite <- (NilZero.isi (Z.to_int a)), <- (NilZero.isi (Z.to_int b))
      by apply to_int_nonnil.
    now rewrite E. }
  now injection S.
Qed.

Lemma Math_round_integral (x : number) : integral x = true -> Math_round x = x.
Proof. destruct x; simpl; try reflexivity. intros ->. reflexivity. Qed.

(** On a finite Number [Math.round] gives the integer [r] with
    [r <= x + 1/2 < r + 1]. *)
Lemma Math_round_finite (s : bool) (m : positive) (e : Z) :
  let x := S754_finite s m e in
  exists r : Z,
    inject_Z r <= toQ x + (1 # 2) /\ toQ x + (1 # 2) < inject_Z r + 1 /\
    toQ (Math_round x) == inject_Z r /\
    ((Z.abs r <= MAX_SAFE_INTEGER)%Z -> Number_toString (Math_round x) = showZ r).
Proof.
  intros x. destruct (integral x) eqn:I.
  - exists (Qfloor (toQ x)).
    assert (E : inject_Z (Qfloor (toQ x)) == toQ x) by (apply Qeq_bool_iff; exact I).
    rewrite (Math_round_integral x I).
    split; [lra|]. split; [lra|]. split; [symmetry; exact E|].
    intros B. unfold Number_toString, x. fold x.
    change (is_integer (toQ x)) with (integral x).
    rewrite I. apply Z.leb_le in B. rewrite B. reflexivity.
  - set (r := Qfloor (toQ x + (1 # 2))). exists r.
    pose proof (Qfloor_le (toQ x + (1 # 2))) as L.
    pose proof (Qlt_floor (toQ x + (1 # 2))) as U. fold r in L, U.
    rewrite inject_Z_plus in U. change (inject_Z 1) with 1 in U.
    assert (M : Math_round x = if (r =? 0)%Z then S754_zero s else ofZ r).
    { unfold Math_round, x. fold x. rewrite I. reflexivity. }
    rewrite M. split; [exact L|]. split; [exact U|].
    destruct (r =? 0)%Z eqn:Z0.
    + apply Z.eqb_eq in Z0. rewrite Z0. split; [reflexivity|]. intros _. reflexivity.
    + split; [apply toQ_ofZ|]. intros B. apply Number_toString_ofZ, B.
Qed.

Lemma numeric_head_or_empty (s : string) :
  numeric_head s = true -> numeric_or_empty s = true.
Proof. destruct s; [discriminate|exact (fun E => E)]. Qed.

Lemma showZ_numeric (z : Z) : numeric_head (showZ z) = true.
Proof.
  unfold showZ. destruct (Z.to_int z) as [d|d]; [|reflexivity].
  destruct d; reflexivity.
Qed.

Lemma append_numeric (s t : string) :
  numeric_head s = true -> numeric_or_empty (s ++ t) = true.
Proof. destruct s; [discriminate|exact (fun E => E)]. Qed.

Lemma substring_numeric (n : nat) (s t : string) :
  numeric_head s = true -> numeric_or_empty (substring 0 (S n) s ++ t) = true.
Proof. destruct s; [discriminate|exact (fun E => E)]. Qed.

Lemma layout_numeric (digits : string) (n k : Z) :
  numeric_head digits = true -> numeric_or_empty (layout digits n k) = true.
Proof.
  intros D. unfold layout.
  destruct ((k <=? n)%Z && (n <=? 21)%Z); [exact (append_numeric _ _ D)|].
  destruct ((0 <? n)%Z && (n <=? 21)%Z) eqn:P.
  { apply andb_prop in P. destruct P as [P _]. apply Z.ltb_lt in P.
    destruct (Z.to_nat n) as [|n'] eqn:N; [lia|].
    exact (substring_numeric _ _ _ D). }
  destruct ((-6 <? n)%Z && (n <=? 0)%Z); [reflexivity|].
  destruct (k =? 1)%Z; [exact (append_numeric _ _ D)|].
  exact (substring_numeric _ _ _ D).
Qed.

Lemma shortest_numeric (m : positive) (e : Z) :
  numeric_or_empty (shortest m e) = true.
Proof.
  unfold shortest.
  destruct (canonical m e) as [m' e'].
  destruct (rounding_interval m' e') as [[lo hi] closed].
  destruct (shortest_from _ _ _ _ _ _ _) as [[s n] k].
  apply layout_numeric, showZ_numeric.
Qed.

Lemma Number_toString_numeric (x : number) :
  numeric_or_empty (Number_toString x) = true.
Proof.
  destruct x as [s|s| |s m e]; try reflexivity.
  - destruct s; reflexivity.
  - unfold Number_toString.
    destruct (is_integer _ && _).
    + apply numeric_head_or_empty, showZ_numeric.
    + destruct s; [reflexivity|apply shortest_numeric].
Qed.

(** The text of a Number names nothing that an object inherits. *)
Lemma numeric_not_inherited (key : string) :
  numeric_or_empty key = true ->
  existsb (String.eqb key) Object_prototype_names = false.
Proof.
  destruct key as [|c key]; [reflexivity|].
  unfold numeric_or_empty, numeric_char, byte. intros P.
  destruct c as [[] [] [] [] [] [] [] []]; try discriminate P; reflexivity.
Qed.

(** ** Actions *)

Lemma run_and_then {A B : Type} (net : network) (t : async A) (f : A -> async B) :
  run net (and_then t f) = run net (f (run net t)).
Proof. induction t as [a|req k IH]; simpl; [reflexivity|apply IH]. Qed.

Lemma requests_and_then {A B : Type} (net : network) (t : async A) (f : A -> async B) :
  requests net (and_then t f)
  = (requests net t ++ requests net (f (run net t)))%list.
Proof.
  induction t as [a|req k IH]; simpl; [reflexivity|].
  now rewrite IH.
Qed.

Lemma run_await {S A : Type} (net : network) (t : action unit A) (s : S) :
  run net (await t s) = (s, completion net t).
Proof.
  unfold await, completion. rewrite run_and_then.
  destruct (run net (t tt)) as [u r]. reflexivity.
Qed.

Lemma requests_await {S A : Type} (net : network) (t : action unit A) (s : S) :
  requests net (await t s) = requests net (t tt).
Proof.
  unfold await. rewrite requests_and_then.
  destruct (run net (t tt)) as [u r]. simpl. apply List.app_nil_r.
Qed.

Lemma run_bind {S A B : Type} (net : network) (t : action S A) (f : A -> action S B) (s : S) :
  run net (bind t f s)
  = match run net (t s) with
    | (s', inl e) => (s', inl e)
    | (s', inr a) => run net (f a s')
    end.
Proof.
  unfold bind. rewrite run_and_then.
  destruct (run net (t s)) as [s' [e|a]]; reflexivity.
Qed.

Lemma run_try_catch {S A : Type} (net : network) (t : action S A)
      (handler : exn -> action S A) (s : S) :
  run net (try_catch t handler s)
  = match run net (t s) with
    | (s', inl e) => run net (handler e s')
    | (s', inr a) => (s', inr a)
    end.
Proof.
  unfold try_catch. rewrite run_and_then.
  destruct (run net (t s)) as [s' [e|a]]; reflexivity.
Qed.

Lemma requests_bind {S A B : Type} (net : network) (t : action S A)
      (f : A -> action S B) (s : S) :
  requests net (bind t f s)
  = (requests net (t s)
     ++ match run net (t s) with
        | (s', inl e) => []
        | (s', inr a) => requests net (f a s')
        end)%list.
Proof.
  unfold bind. rewrite requests_and_then.
  destruct (run net (t s)) as [s' [e|a]]; reflexivity.
Qed.

Lemma requests_try_catch {S A : Type} (net : network) (t : action S A)
      (handler : exn -> action S A) (s : S) :
  requests net (try_catch t handler s)
  = (requests net (t s)
     ++ match run net (t s) with
        | (s', inl e) => requests net (handler e s')
        | (s', inr a) => []
        end)%list.
Proof.
  unfold try_catch. rewrite requests_and_then.
  destruct (run net (t s)) as [s' [e|a]]; reflexivity.
Qed.

(** ** The weather-code table and the formatters *)

Lemma lookup_showZ (z : Z) (l : list (Z * string)) :
  lookup (showZ z) (map (fun '(k, description) => (showZ k, description)) l)
  = option_map snd (find (fun kd => (fst kd =? z)%Z) l).
Proof.
  induction l as [|[k d] l IH]; simpl; [reflexivity|].
  destruct (Z.eqb_spec k z) as [->|N].
  - rewrite String.eqb_refl. reflexivity.
  - destruct (String.eqb_spec (showZ z) (showZ k)) as [E|_]; [|exact IH].
    apply showZ_inj in E. congruence.
Qed.

Lemma lookup_In {A : Type} (k : string) (l : list (string * A)) (a : A) :
  lookup k l = Some a -> In a (map snd l).
Proof.
  induction l as [|[k' a'] l IH]; simpl; [discriminate|].
  destruct (String.eqb k k'); [intros [= ->]; now left|right; auto].
Qed.

(** No description of the table is empty. *)
Lemma WEATHER_CODE_MAP_truthy (k description : string) :
  lookup k WEATHER_CODE_MAP = Some description -> ToBoolean (VString description) = true.
Proof.
  intros L. apply lookup_In in L. simpl in L.
  repeat (destruct L as [<-|L]; [reflexivity|]). contradiction.
Qed.

(** ** The calendar *)

Lemma days_from_spec (n : nat) :
  forall doe i, days_from (month_and_date doe) doe n = true ->
    (doe <= i < doe + Z.of_nat n)%Z ->
    next_day (month_and_date i) (month_and_date (i + 1)) = true.
Proof.
  induction n as [|n IH]; intros doe i A B; [lia|].
  cbn [days_from] in A. cbv zeta in A. apply andb_prop in A. destruct A as [A1 A2].
  destruct (Z.eq_dec i doe) as [->|N]; [exact A1|].
  apply (IH (doe + 1)%Z); [exact A2|lia].
Qed.

Lemma calendar_steps :
  days_from (month_and_date 0) 0 days_of_era = true /\
  next_day (month_and_date 146096) (month_and_date 0) = true.
Proof. split; vm_compute; reflexivity. Qed.

Lemma calendar_next (day : Z) :
  next_day (month_of_day day, date_of_day day)
           (month_of_day (day + 1), date_of_day (day + 1)) = true.
Proof.
  change (next_day (month_and_date (day_of_era day))
                   (month_and_date (day_of_era (day + 1))) = true).
  assert (D : Z.of_nat days_of_era = 146096%Z) by (apply Z2Nat.id; discriminate).
  assert (B : (0 <= day_of_era day < 146097)%Z)
    by (unfold day_of_era; apply Z.mod_pos_bound; reflexivity).
  assert (N : (day_of_era (day + 1) = (day_of_era day + 1) mod 146097)%Z).
  { unfold day_of_era.
    replace (day + 1 + 719468)%Z with ((day + 719468) + 1)%Z by lia.
    rewrite Z.add_mod_idemp_l by lia. reflexivity. }
  rewrite N. destruct calendar_steps as [S L].
  destruct (Z.eq_dec (day_of_era day) 146096) as [E|E].
  - rewrite E. exact L.
  - rewrite Z.mod_small by lia.
    apply (days_from_spec _ 0%Z _ S). rewrite D. lia.
Qed.

Section Formatting.
Context `{Engine}.

(** C2.  The weather-code lookup is total: for every Number it gives a
    text, which is not empty; it is the table's entry when the code is one
    of its keys and ["Código <code>"] otherwise.  For an integer code [z]
    the key is the decimal form of [z]; code 3 gives ["Nublado"]. *)
Theorem weather_code_lookup_total :
  (forall x : number,
     weather_code_text (VNumber x) <> inr "" /\
     weather_code_text (VNumber x) =
       inr match lookup (Number_toString x) WEATHER_CODE_MAP with
           | Some description => description
           | None => "Código " ++ Number_toString x
           end) /\
  (forall z : Z, (Z.abs z <= MAX_SAFE_INTEGER)%Z ->
     weather_code_text (VNumber (ofZ z)) =
       inr match description_of z with
           | Some description => description
           | None => "Código " ++ showZ z
           end) /\
  weather_code_text (VNumber (ofZ 3)) = inr "Nublado".
Proof.
  assert (G : forall x : number,
     weather_code_text (VNumber x) <> inr "" /\
     weather_code_text (VNumber x) =
       inr match lookup (Number_toString x) WEATHER_CODE_MAP with
           | Some description => description
           | None => "Código " ++ Number_toString x
           end).
  { intros x. unfold weather_code_text.
    change (ToString (VNumber x)) with (@inr exn string (Number_toString x)).
    cbn [and_with].
    destruct (lookup (Number_toString x) WEATHER_CODE_MAP) as [d|] eqn:L.
    - pose proof (WEATHER_CODE_MAP_truthy _ _ L) as T.
      unfold or_else. rewrite T. split; [|reflexivity].
      change (ToString (VString d)) with (@inr exn string d).
      destruct d; [discriminate T|discriminate].
    - rewrite (numeric_not_inherited _ (Number_toString_numeric x)).
      split; [discriminate|reflexivity]. }
  split; [exact G|]. split; [|reflexivity].
  intros z B. destruct (G (ofZ z)) as [_ ->].
  rewrite (Number_toString_ofZ z B).
  unfold WEATHER_CODE_MAP, description_of. rewrite lookup_showZ. reflexivity.
Qed.

(** C3.  [formatNumber] gives the placeholder for [null], [undefined] and
    NaN.  For every other Number it gives the text of [Math.round] of it
    followed by the unit; on a finite Number that is the integer [r] with
    [r <= x + 1/2 < r + 1], in decimal digits (21.6 with ["°C"] gives
    ["22°C"]).  An integral Number is rendered as itself: [Math.round]
    returns it unchanged, and the integer [z] reads [z]. *)
Theorem formatNumber_rounds :
  (forall unit : string,
     formatNumber VNull unit = inr "—" /\
     formatNumber VUndefined unit = inr "—" /\
     formatNumber (VNumber S754_nan) unit = inr "—") /\
  (forall (x : number) (unit : string), number_isNaN x = false ->
     formatNumber (VNumber x) unit = inr (Number_toString (Math_round x) ++ unit)) /\
  (forall (x : number) (unit : string), is_finite x = true ->
     exists r : Z,
       inject_Z r <= toQ x + (1 # 2) /\ toQ x + (1 # 2) < inject_Z r + 1 /\
       toQ (Math_round x) == inject_Z r /\
       ((Z.abs r <= MAX_SAFE_INTEGER)%Z ->
        formatNumber (VNumber x) unit = inr (showZ r ++ unit))) /\
  formatNumber (VNumber (ofDecimal 216 10)) "°C" = inr "22°C" /\
  (forall (x : number) (unit : string), integral x = true ->
     Math_round x = x /\
     formatNumber (VNumber x) unit = inr (Number_toString x ++ unit)) /\
  (forall (z : Z) (unit : string), (Z.abs z <= MAX_SAFE_INTEGER)%Z ->
     formatNumber (VNumber (ofZ z)) unit = inr (showZ z ++ unit)).
Proof.
  assert (F : forall (x : number) (unit : string), number_isNaN x = false ->
     formatNumber (VNumber x) unit = inr (Number_toString (Math_round x) ++ unit)).
  { intros x unit N. unfold formatNumber. simpl. rewrite N. reflexivity. }
  assert (I : forall (x : number) (unit : string), integral x = true ->
     Math_round x = x /\
     formatNumber (VNumber x) unit = inr (Number_toString x ++ unit)).
  { intros x unit I. pose proof (Math_round_integral x I) as M.
    split; [exact M|]. rewrite F, M; [reflexivity|].
    destruct x; try reflexivity; discriminate I. }
  split; [intros unit; repeat split|].
  split; [exact F|].
  split.
  { intros x unit Fin. destruct x as [s|s| |s m e]; try discriminate Fin.
    - exists 0%Z. simpl toQ. change (inject_Z 0) with 0.
      split; [lra|]. split; [lra|]. split; [reflexivity|].
      intros _. reflexivity.
    - destruct (Math_round_finite s m e) as (r & L & U & E & P).
      exists r. split; [exact L|]. split; [exact U|]. split; [exact E|].
      intros B. rewrite F by reflexivity. rewrite (P B). reflexivity. }
  split; [vm_compute; reflexivity|].
  split; [exact I|].
  intros z unit B.
  assert (Iz : integral (ofZ z) = true).
  { destruct (is_integer_inject _ _ (toQ_ofZ z)) as [Iq _].
    destruct z as [|p|p]; [reflexivity| |]; simpl ofZ in *.
    - destruct (ofPos_finite false p) as (m & e & E). rewrite E in *. exact Iq.
    - destruct (ofPos_finite true p) as (m & e & E). rewrite E in *. exact Iq. }
  destruct (I (ofZ z) unit Iz) as [_ ->].
  rewrite (Number_toString_ofZ z B). reflexivity.
Qed.

(** C8.  [formatTimeISOToLocal] gives the placeholder for a missing
    timestamp ([null], [undefined] or the empty string).  For a timestamp
    that is not empty and that [Date.parse] reads as the time value [t],
    and a time zone that [Intl] knows (the one supplied, or the host's
    when none is supplied), it gives day, ["/"], month, the separator of
    the locale, hour, [":"] and minute, each in two digits, of the local
    time of [t] in that time zone: a date from 1 to 31, a month from 1 to
    12, an hour from 0 to 23 and a minute from 0 to 59, the date and the
    month following the calendar from one day to the next.  When the
    formatting throws (the time zone is not known, or has no text) it
    gives the timestamp back unchanged. *)
Theorem formatTimeISOToLocal_cases :
  (forall tz : value,
     formatTimeISOToLocal VNull tz = VString "—" /\
     formatTimeISOToLocal VUndefined tz = VString "—" /\
     formatTimeISOToLocal (VString "") tz = VString "—") /\
  (forall (iso : string) (tz : value) (t : Z) (offset : Z -> Z), iso <> "" ->
     Date_parse iso = Some t ->
     time_zone tz = Some offset ->
     let local := (t + offset t)%Z in
     formatTimeISOToLocal (VString iso) tz
     = VString (two_digits (DateFromTime local) ++ "/"
                ++ two_digits (MonthFromTime local)
                ++ pt_BR_date_time_separator
                ++ two_digits (HourFromTime local) ++ ":"
                ++ two_digits (MinFromTime local))) /\
  ((forall zone : string, time_zone (VString zone) = TimeZoneOffset zone) /\
   time_zone VUndefined = TimeZoneOffset DefaultTimeZone) /\
  (forall t : Z,
     (1 <= DateFromTime t <= 31)%Z /\ (1 <= MonthFromTime t <= 12)%Z /\
     (0 <= HourFromTime t <= 23)%Z /\ (0 <= MinFromTime t <= 59)%Z /\
     next_day (MonthFromTime t, DateFromTime t)
              (MonthFromTime (t + msPerDay), DateFromTime (t + msPerDay)) = true /\
     (HourFromTime t * 60 + MinFromTime t
      = (t / msPerMinute) mod 1440)%Z) /\
  (DateFromTime 0 = 1 /\ MonthFromTime 0 = 1 /\ HourFromTime 0 = 0
   /\ MinFromTime 0 = 0)%Z /\
  (forall (iso : string) (tz : value) (t : Z), iso <> "" ->
     Date_parse iso = Some t ->
     time_zone tz = None ->
     formatTimeISOToLocal (VString iso) tz = VString iso).
Proof.
  split; [intros tz; repeat split|].
  split.
  { intros iso tz t offset N D Z local. unfold formatTimeISOToLocal.
    destruct iso; [contradiction|].
    change (ToBoolean (VString (String a iso))) with true.
    cbn [negb new_Date toLocaleString]. rewrite D. cbn [toLocaleString].
    rewrite Z. reflexivity. }
  split; [split; [reflexivity|reflexivity]|].
  split.
  { intros t.
    pose proof (calendar_next (Day t)) as C.
    assert (S : Day (t + msPerDay) = (Day t + 1)%Z).
    { unfold Day, msPerDay.
      replace (t + 86400000)%Z with (t + 1 * 86400000)%Z by lia.
      apply Z.div_add. discriminate. }
    unfold MonthFromTime, DateFromTime. rewrite S.
    pose proof C as R. unfold next_day in R.
    repeat (apply andb_prop in R; destruct R as [R ?]).
    repeat match goal with E : (_ <=? _)%Z = true |- _ => apply Z.leb_le in E end.
    unfold HourFromTime, MinFromTime, msPerHour, msPerMinute.
    pose proof (Z.mod_pos_bound (t / 3600000) 24 eq_refl).
    pose proof (Z.mod_pos_bound (t / 60000) 60 eq_refl).
    repeat split; try lia; try exact C.
    replace 3600000%Z with (60000 * 60)%Z by reflexivity.
    rewrite <- Z.div_div by lia.
    set (m := (t / 60000)%Z).
    replace 1440%Z with (60 * 24)%Z by reflexivity.
    rewrite Z.rem_mul_r by lia. lia. }
  split; [repeat split|].
  intros iso tz t N D Z. unfold formatTimeISOToLocal.
  destruct iso; [contradiction|].
  change (ToBoolean (VString (String a iso))) with true.
  cbn [negb new_Date toLocaleString]. rewrite D. cbn [toLocaleString].
  rewrite Z. reflexivity.
Qed.

(** A value has a text exactly when the formatters give one for it. *)
Lemma formatNumber_convertible (v : value) (unit : string) :
  convertible v = true <-> exists text, formatNumber v unit = inr text.
Proof.
  unfold formatNumber, convertible, ToNumber.
  destruct v as [ | |b|x|s|elements|properties]; cbn [is_null is_undefined orb Number_isNaN];
    try (split; [intros _; eexists; reflexivity|reflexivity]).
  - destruct (number_isNaN x); split; try reflexivity; intros _; eexists; reflexivity.
  - destruct (ToString (VArray elements)); cbn [and_with];
      split; try discriminate; eauto. intros [t E]. discriminate E.
  - destruct (ToString (VObject properties)); cbn [and_with];
      split; try discriminate; eauto. intros [t E]. discriminate E.
Qed.

Lemma weather_code_text_convertible (v : value) :
  convertible v = true <-> exists text, weather_code_text v = inr text.
Proof.
  unfold weather_code_text, convertible.
  destruct (ToString v) as [e|key]; cbn [and_with].
  - split; [discriminate|intros [t E]; discriminate E].
  - split; [intros _|reflexivity].
    destruct (lookup key WEATHER_CODE_MAP) as [d|].
    + unfold or_else. destruct (ToBoolean (VString d)); eexists; reflexivity.
    + destruct (existsb _ _); eexists; reflexivity.
Qed.

Lemma formatTimeISOToLocal_convertible (iso tz : value) :
  convertible iso = true <-> convertible (formatTimeISOToLocal iso tz) = true.
Proof.
  unfold formatTimeISOToLocal.
  destruct (ToBoolean iso) eqn:T; cbn [negb].
  { destruct (new_Date iso) as [e|date] eqn:D.
    - reflexivity.
    - destruct (toLocaleString date tz) as [text|]; [|reflexivity].
      split; [reflexivity|intros _].
      unfold convertible. unfold new_Date, ToNumber in D.
      destruct iso; try reflexivity;
        match type of D with
        | context [ToString ?v] => destruct (ToString v); [discriminate D|reflexivity]
        end. }
  split; [reflexivity|intros _; exact (falsy_convertible iso T)].
Qed.

Lemma or_else_convertible (a : value) (text : string) :
  convertible (or_else a (VString text)) = convertible a.
Proof.
  unfold or_else. destruct (ToBoolean a) eqn:T; [reflexivity|].
  rewrite (falsy_convertible a T). reflexivity.
Qed.

End Formatting.

(** ** geocodeCity *)

Lemma get_field (v : value) (k : string) :
  nullish v = false -> get v k = inr (field v k).
Proof. destruct v; try discriminate; reflexivity. Qed.

Lemma truthy_not_nullish (v : value) : ToBoolean v = true -> nullish v = false.
Proof. destruct v; try discriminate; reflexivity. Qed.

(** What [geocodeCity] completes with, response by response. *)
Lemma geocodeCity_by_case (net : network) (query : value) (req : request) :
  geocode_request query = inr req ->
  let c := completion net (geocodeCity query) in
  match classify (net req) with
  | Unreachable message => c = inl (FetchRejection message)
  | Refused => c = inl (Error "Falha ao buscar geocodificação")
  | Unreadable message => c = inl (BodyRejection message)
  | NoData data => c = inl (TypeError data "results")
  | NoMatch => c = inl (Error "Cidade não encontrada")
  | NoFirst r => c = inl (TypeError r "name")
  | Match r => c = place_of r
  end.
Proof.
  intros Q. unfold completion, geocodeCity, classify. rewrite Q. cbn.
  destruct (net req) as [message|res]; cbn; [reflexivity|].
  destruct (ok res); cbn; [|reflexivity].
  unfold res_json. destruct (json res) as [message|data]; cbn; [reflexivity|].
  destruct (nullish data) eqn:D.
  { destruct data; try discriminate D; reflexivity. }
  rewrite (get_field data "results" D). cbn.
  set (results := field data "results").
  destruct (ToBoolean results) eqn:T; cbn; [|reflexivity].
  pose proof (truthy_not_nullish results T) as R.
  rewrite (get_field results "length" R). cbn.
  destruct (strict_equal_number (field results "length") (S754_zero false));
    cbn; [reflexivity|].
  rewrite (get_field results "0" R). cbn.
  set (r := field results "0").
  destruct (nullish r) eqn:N.
  { destruct r; try discriminate N; reflexivity. }
  rewrite !(get_field r _ N). unfold place_of, segment. cbn.
  destruct (ToString (field r "name")) as [e|name]; cbn; [reflexivity|].
  destruct (ToBoolean (field r "admin1")); cbn;
    [destruct (ToString (field r "admin1")) as [e|admin1]; cbn; [reflexivity|]|];
    (destruct (ToBoolean (field r "country")); cbn;
     [destruct (ToString (field r "country")) as [e|country]; cbn|]; reflexivity).
Qed.

(** Without a request, nothing is fetched. *)
Lemma geocodeCity_no_request (net : network) (query : value) (e : exn) :
  geocode_request query = inl e ->
  completion net (geocodeCity query) = inl e /\ requests net (geocodeCity query tt) = [].
Proof.
  intros Q. unfold completion, geocodeCity. rewrite Q. split; reflexivity.
Qed.

Lemma geocode_request_text (text : string) :
  geocode_request (VString text)
  = inr {| url := "https://geocoding-api.open-meteo.com/v1/search";
           searchParams := [("name", text); ("language", "pt"); ("count", "1")];
           headers := accept_json |}.
Proof. reflexivity. Qed.

Lemma ofZ_pos_not_zero (p : positive) :
  strict_equal_number (VNumber (ofZ (Z.pos p))) (ofZ 0) = false.
Proof.
  pose proof (toQ_ofZ (Z.pos p)) as E. simpl ofZ in *.
  destruct (ofPos_finite false p) as (m & e & F). rewrite F in *.
  unfold strict_equal_number.
  destruct (Qeq_bool (toQ (S754_finite false m e)) (toQ (S754_zero false))) eqn:B;
    [|reflexivity].
  apply Qeq_bool_iff in B. rewrite E in B. discriminate B.
Qed.

(** The classes of [classify], in the words of the statements. *)
Lemma answered_inv (res : response) (data : value) :
  answered (Arrived res) data <-> ok res = true /\ json res = JSON data.
Proof.
  split.
  - intros (res' & [= <-] & K & J). now split.
  - intros [K J]. exists res. now split.
Qed.

Lemma answered_data (res : response) (data data' : value) :
  json res = JSON data -> answered (Arrived res) data' -> data' = data.
Proof.
  intros J A. apply answered_inv in A. destruct A as [_ A]. congruence.
Qed.

Lemma classify_NoMatch (o : outcome) :
  classify o = NoMatch <-> exists data, answered o data /\ without_results data.
Proof.
  unfold classify, without_results. cbv zeta. destruct o as [message|res].
  { split; [discriminate|intros (data & (res & E & _) & _); discriminate E]. }
  destruct (ok res) eqn:K; cbn [negb].
  2:{ split; [discriminate|].
      intros (data & A & _). apply answered_inv in A. destruct A as [A _]. congruence. }
  destruct (json res) as [message|data] eqn:J.
  { split; [discriminate|].
    intros (data & A & _). apply answered_inv in A. destruct A as [_ A]. congruence. }
  destruct (nullish data) eqn:D.
  { split; [discriminate|].
    intros (data' & A & D' & _). apply answered_inv in A. destruct A as [_ A].
    congruence. }
  destruct (ToBoolean (field data "results")) eqn:T; cbn [negb orb].
  - destruct (strict_equal_number _ _) eqn:L.
    + split; [intros _|reflexivity]. exists data.
      split; [apply answered_inv; now split|]. split; [exact D|now right].
    + split; [destruct (nullish (field _ "0")); intros E; discriminate E|].
      intros (data' & A & _ & [F|Z]); rewrite (answered_data _ _ _ J A) in *;
        congruence.
  - split; [intros _|reflexivity]. exists data.
    split; [apply answered_inv; now split|]. split; [exact D|now left].
Qed.

Lemma classify_first_result (o : outcome) (r : value) :
  (classify o = Match r \/ classify o = NoFirst r)
  <-> exists data, answered o data /\ first_result data r.
Proof.
  unfold classify, first_result. cbv zeta. destruct o as [message|res].
  { split; [intros [E|E]; discriminate E|intros (data & (res & E & _) & _); discriminate E]. }
  destruct (ok res) eqn:K; cbn [negb].
  2:{ split; [intros [E|E]; discriminate E|].
      intros (data & A & _). apply answered_inv in A. destruct A as [A _]. congruence. }
  destruct (json res) as [message|data] eqn:J.
  { split; [intros [E|E]; discriminate E|].
    intros (data & A & _). apply answered_inv in A. destruct A as [_ A]. congruence. }
  destruct (nullish data) eqn:D.
  { split; [intros [E|E]; discriminate E|].
    intros (data' & A & D' & _). apply answered_inv in A. destruct A as [_ A].
    congruence. }
  destruct (ToBoolean (field data "results")) eqn:T; cbn [negb orb].
  2:{ split; [intros [E|E]; discriminate E|].
      intros (data' & A & _ & T' & _). rewrite (answered_data _ _ _ J A) in *.
      congruence. }
  destruct (strict_equal_number _ _) eqn:L.
  { split; [intros [E|E]; discriminate E|].
    intros (data' & A & _ & _ & L' & _). rewrite (answered_data _ _ _ J A) in *.
    congruence. }
  split.
  - intros E. exists data. split; [apply answered_inv; now split|].
    repeat split; try assumption.
    destruct (nullish (field (field data "results") "0")); destruct E as [E|E];
      congruence.
  - intros (data' & A & _ & _ & _ & R). rewrite (answered_data _ _ _ J A) in *.
    rewrite R.
    destruct (nullish r); [now right|now left].
Qed.

Lemma classify_nullish (o : outcome) (r : value) :
  (classify o = Match r -> nullish r = false) /\
  (classify o = NoFirst r -> nullish r = true).
Proof.
  unfold classify. cbv zeta. destruct o as [message|res]; [split; discriminate|].
  destruct (negb (ok res)); [split; discriminate|].
  destruct (json res) as [message|data]; [split; discriminate|].
  destruct (nullish data); [split; discriminate|].
  destruct (_ || _); [split; discriminate|].
  destruct (nullish (field (field data "results") "0")) eqn:N;
    split; try discriminate; intros [= <-]; exact N.
Qed.

Lemma classify_Match (o : outcome) (r : value) :
  classify o = Match r
  <-> exists data, answered o data /\ first_result data r /\ nullish r = false.
Proof.
  split.
  - intros E. destruct (proj1 (classify_first_result o r) (or_introl E)) as (data & A & F).
    exists data. split; [exact A|]. split; [exact F|].
    exact (proj1 (classify_nullish o r) E).
  - intros (data & A & F & N).
    destruct (proj2 (classify_first_result o r) (ex_intro _ data (conj A F))) as [E|E];
      [exact E|].
    pose proof (proj2 (classify_nullish o r) E). congruence.
Qed.

Lemma classify_array (data r : value) (rest : list value) :
  get data "results" = inr (VArray (r :: rest)) -> first_result data r.
Proof.
  intros G.
  assert (D : nullish data = false) by (destruct data; try discriminate G; reflexivity).
  assert (R : field data "results" = VArray (r :: rest))
    by (unfold field; rewrite G; reflexivity).
  unfold first_result. rewrite R. split; [exact D|]. split; [reflexivity|].
  split; [|reflexivity].
  exact (ofZ_pos_not_zero (Pos.of_succ_nat (List.length rest))).
Qed.

(** A result is nameable exactly when a place is made of it. *)
Lemma place_of_nameable (r : value) :
  nameable r = true <-> exists found, place_of r = inr found.
Proof.
  unfold nameable, writable, place_of, segment, convertible. cbn [andb orb].
  destruct (ToString (field r "name")) as [e|name]; cbn [and_with].
  { split; [discriminate|intros [f E]; discriminate E]. }
  destruct (ToBoolean (field r "admin1")); cbn [negb orb andb].
  - destruct (ToString (field r "admin1")) as [e|admin1]; cbn [and_with].
    { split; [discriminate|intros [f E]; discriminate E]. }
    destruct (ToBoolean (field r "country")); cbn [negb orb andb].
    + destruct (ToString (field r "country")) as [e|country]; cbn [and_with].
      { split; [discriminate|intros [f E]; discriminate E]. }
      split; [intros _; eexists|]; reflexivity.
    + split; [intros _; eexists|]; reflexivity.
  - destruct (ToBoolean (field r "country")); cbn [negb orb andb].
    + destruct (ToString (field r "country")) as [e|country]; cbn [and_with].
      { split; [discriminate|intros [f E]; discriminate E]. }
      split; [intros _; eexists|]; reflexivity.
    + split; [intros _; eexists|]; reflexivity.
Qed.

Lemma place_of_throws (r : value) (e : exn) :
  place_of r = inl e -> exists target, e = NotConvertible target.
Proof.
  unfold place_of, segment.
  destruct (ToString (field r "name")) as [e'|name] eqn:N; cbn [and_with].
  { intros [= <-]. exact (ToString_throws _ _ N). }
  destruct (ToBoolean (field r "admin1")).
  - destruct (ToString (field r "admin1")) as [e'|admin1] eqn:A; cbn [and_with].
    { intros [= <-]. exact (ToString_throws _ _ A). }
    destruct (ToBoolean (field r "country")); [|discriminate].
    destruct (ToString (field r "country")) as [e'|country] eqn:C; cbn [and_with];
      [|discriminate].
    intros [= <-]. exact (ToString_throws _ _ C).
  - cbn [and_with]. destruct (ToBoolean (field r "country")); [|discriminate].
    destruct (ToString (field r "country")) as [e'|country] eqn:C; cbn [and_with];
      [|discriminate].
    intros [= <-]. exact (ToString_throws _ _ C).
Qed.

(** C1, amended.  When the response holds a [results] array that is not
    empty, whose first element [r] is not [null] and has a [name], an
    [admin1] and a [country] with a text, [geocodeCity] returns the place
    made of [r] alone: the name reads ["<name>, <region> - <country>"],
    the region segment left out when [admin1] is absent and the country
    segment when [country] is; one result named São Paulo, of region SP
    and country Brazil, gives ["São Paulo, SP - Brazil"].  Every string,
    Number, boolean, [null] and missing value has a text. *)
Theorem geocodeCity_first_result :
  (forall (net : network) (query data r : value) (req : request) (rest : list value)
          (name admin1 country : string),
     geocode_request query = inr req ->
     net req = Arrived {| ok := true; json := JSON data |} ->
     get data "results" = inr (VArray (r :: rest)) ->
     nullish r = false ->
     ToString (field r "name") = inr name ->
     segment ", " (field r "admin1") = inr admin1 ->
     segment " - " (field r "country") = inr country ->
     completion net (geocodeCity query)
     = inr {| name := name ++ admin1 ++ country;
              latitude := field r "latitude";
              longitude := field r "longitude";
              timezone := field r "timezone" |}) /\
  (forall separator : string,
     segment separator VUndefined = inr "" /\
     segment separator VNull = inr "" /\
     forall text : string, text <> "" ->
       segment separator (VString text) = inr (separator ++ text)) /\
  (forall v : value,
     match v with VArray _ | VObject _ => True | _ => convertible v = true end) /\
  completion Sample.net (geocodeCity (VString "São Paulo")) = inr Sample.city.
Proof.
  split; [|split; [|split]].
  - intros net query data r req rest name admin1 country Q A G N Hn Ha Hc.
    pose proof (geocodeCity_by_case net query req Q) as C. cbv zeta in C.
    assert (M : classify (net req) = Match r).
    { apply classify_Match. exists data.
      split; [rewrite A; eexists; repeat split|].
      split; [exact (classify_array data r rest G)|exact N]. }
    rewrite M in C. rewrite C. unfold place_of. rewrite Hn, Ha, Hc. reflexivity.
  - intros separator. split; [reflexivity|]. split; [reflexivity|].
    intros text T. destruct text; [contradiction|reflexivity].
  - intros v. destruct v; try reflexivity; exact I.
  - vm_compute. reflexivity.
Qed.

(** C4, amended.  [geocodeCity] fails with NotFoundError exactly when a
    successful response has a JSON body other than [null] whose [results]
    is falsy or has a [length] of 0; it fails with NetworkError exactly
    when the HTTP call does not succeed; it returns a place exactly when a
    successful response has a JSON body other than [null] whose [results]
    is truthy with a [length] other than 0 and a first element that is
    not [null] and has a [name], an [admin1] and a [country] that can be
    written; for the responses left it fails with the rejection of
    [res.json()] (a body that is no JSON text) or with a TypeError (the
    body [null], a first result that is [null] or missing, a part of the
    name without a text). *)
Theorem geocodeCity_outcomes (net : network) (query : value) (req : request) :
  geocode_request query = inr req ->
  let o := net req in
  let c := completion net (geocodeCity query) in
  ((exists e, c = inl e /\ NotFoundError e)
   <-> exists data, answered o data /\ without_results data) /\
  ((exists e, c = inl e /\ NetworkError e) <-> call_failed o) /\
  ((exists found, c = inr found)
   <-> exists data r, answered o data /\ first_result data r /\
         nullish r = false /\ nameable r = true) /\
  (zero_results o -> exists data, answered o data /\ without_results data) /\
  (forall e, c = inl e -> ~ NotFoundError e -> ~ NetworkError e ->
     (exists message, e = BodyRejection message /\
        exists res, o = Arrived res /\ ok res = true /\ json res = NotJSON message) \/
     (exists target property, e = TypeError target property /\ nullish target = true) \/
     (exists target, e = NotConvertible target)).
Proof.
  intros Q o c. pose proof (geocodeCity_by_case net query req Q) as C.
  fold o c in C.
  assert (F : call_failed o <->
              (classify o = Refused \/ exists message, classify o = Unreachable message)).
  { unfold call_failed, classify. destruct o as [message|res].
    - split; intros _; [right|left]; eauto.
    - destruct (ok res) eqn:K; cbn.
      + split.
        * intros [[m E]|[res' [[= <-] E]]]; [discriminate E|congruence].
        * destruct (json res); [|destruct (nullish data);
            [|destruct (_ || _); [|destruct (nullish _)]]];
            intros [E|[m E]]; discriminate E.
      + split; [intros _; now left|intros _; right; eauto]. }
  assert (Z : zero_results o -> classify o = NoMatch).
  { intros (data & -> & G). unfold classify. cbn.
    assert (D : nullish data = false)
      by (destruct G as [G|G]; destruct data; try discriminate G; reflexivity).
    rewrite D. unfold field. destruct G as [-> | ->]; reflexivity. }
  split; [|split; [|split; [|split]]].
  - rewrite <- classify_NoMatch. split.
    + intros (e & E & ->). destruct (classify o); rewrite C in E; try discriminate E.
      * reflexivity.
      * destruct (place_of_throws _ _ E) as [t T]. discriminate T.
    + intros E. rewrite E in C. exists (Error "Cidade não encontrada"). now split.
  - rewrite F. split.
    + intros (e & E & [-> | [m ->]]);
        destruct (classify o); rewrite C in E; try discriminate E; eauto;
        destruct (place_of_throws _ _ E) as [t T]; discriminate T.
    + intros [E|[m E]]; rewrite E in C; eexists; (split; [exact C|]).
      * now left.
      * right; eauto.
  - split.
    + intros (found & E). destruct (classify o) eqn:K; rewrite C in E; try discriminate E.
      apply classify_Match in K. destruct K as (data & A & R & N).
      exists data, r. split; [exact A|]. split; [exact R|]. split; [exact N|].
      apply place_of_nameable. eauto.
    + intros (data & r & A & R & N & P).
      assert (K : classify o = Match r) by (apply classify_Match; eauto).
      rewrite K in C. rewrite C. apply place_of_nameable. exact P.
  - intros zero. apply classify_NoMatch. exact (Z zero).
  - intros e E NF NE.
    destruct (classify o) as [m| |m|d| |r|r] eqn:K; rewrite C in E.
    + destruct NE. injection E as <-. right. eauto.
    + destruct NE. injection E as <-. now left.
    + injection E as <-. left. exists m. split; [reflexivity|].
      unfold classify in K. cbv zeta in K. destruct o as [m'|res]; [discriminate K|].
      exists res. split; [reflexivity|].
      destruct (ok res); [|discriminate K]. split; [reflexivity|].
      cbn [negb] in K. destruct (json res) as [m'|d]; [congruence|].
      destruct (nullish d); [discriminate K|].
      destruct (_ || _); [discriminate K|].
      destruct (nullish (field _ "0")); discriminate K.
    + injection E as <-. right. left. exists d, "results". split; [reflexivity|].
      unfold classify in K. cbv zeta in K. destruct o as [m'|res]; [discriminate K|].
      destruct (negb (ok res)); [discriminate K|].
      destruct (json res) as [m'|d']; [discriminate K|].
      destruct (nullish d') eqn:D; [congruence|].
      destruct (_ || _); [discriminate K|].
      destruct (nullish (field _ "0")); discriminate K.
    + destruct NF. injection E as <-. reflexivity.
    + injection E as <-. right. left. exists r, "name". split; [reflexivity|].
      exact (proj2 (classify_nullish o r) K).
    + right. right. exact (place_of_throws _ _ E).
Qed.

(** ** updateUI *)

Section Rendering.
Context `{Engine}.

Ltac thrown :=
  eexists; split; [reflexivity|split; reflexivity].

(** On a payload with a [current] object, [updateUI] writes what
    [rendered] gives, or stops at the first conversion that throws, with
    the location written. *)
Lemma updateUI_rendered (city : place) (weather : value) (p : page) :
  nullish weather = false ->
  nullish (field weather "current") = false ->
  match rendered city weather with
  | inr u => updateUI city weather p = Return (map_ui (fun _ => u) p, inr tt)
  | inl e =>
      exists u, updateUI city weather p = Return (map_ui (fun _ => u) p, inl e) /\
        location u = name city /\ cloud u = cloud (ui p)
  end.
Proof.
  intros W C. unfold updateUI, write, read, lift, assign, modify.
  rewrite !(get_field weather _ W). cbn.
  rewrite !(get_field _ _ C). cbn.
  unfold rendered. cbv zeta.
  set (current := field weather "current").
  destruct (ToString (formatTimeISOToLocal _ _)) as [e|time]; cbn; [thrown|].
  destruct (formatNumber (field current "temperature_2m") _) as [e|temp]; cbn; [thrown|].
  destruct (weather_code_text _) as [e|code]; cbn; [thrown|].
  destruct (formatNumber (field current "wind_speed_10m") _) as [e|speed]; cbn; [thrown|].
  destruct (ToString (or_else _ _)) as [e|direction]; cbn; [thrown|].
  destruct (formatNumber (field current "relative_humidity_2m") _) as [e|humidity];
    cbn; [thrown|].
  destruct (formatNumber (field current "apparent_temperature") _) as [e|apparent];
    cbn; [thrown|].
  destruct (formatNumber (field current "pressure_msl") _) as [e|pressure];
    cbn; [thrown|].
  destruct (ToString (if negb (nullish _) then _ else _)) as [e|precipitation];
    cbn; [thrown|].
  destruct (formatNumber (field current "cloud_cover") _) as [e|cloud]; cbn; [thrown|].
  reflexivity.
Qed.

Lemma updateUI_no_payload (city : place) (weather : value) (p : page) :
  nullish weather = true ->
  updateUI city weather p = Return (p, inl (TypeError weather "current")).
Proof. destruct weather; try discriminate; reflexivity. Qed.

Lemma updateUI_no_current (city : place) (weather : value) (p : page) :
  nullish weather = false ->
  nullish (field weather "current") = true ->
  updateUI city weather p
  = Return (map_ui (set_textContent Location (name city)) p,
            inl (TypeError (field weather "current") "time")).
Proof.
  intros W C. unfold updateUI, read, lift, assign, modify.
  rewrite !(get_field weather _ W). cbn.
  destruct (field weather "current"); try discriminate C; reflexivity.
Qed.

(** [updateUI] awaits nothing, and writes nothing but the ten fields. *)
Lemma updateUI_settled (city : place) (weather : value) (p : page) :
  exists u r, updateUI city weather p = Return (map_ui (fun _ => u) p, r).
Proof.
  destruct (nullish weather) eqn:W.
  { rewrite (updateUI_no_payload city weather p W).
    exists (ui p). eexists. destruct p; reflexivity. }
  destruct (nullish (field weather "current")) eqn:C.
  { rewrite (updateUI_no_current city weather p W C). eexists. eexists. reflexivity. }
  pose proof (updateUI_rendered city weather p W C) as R.
  destruct (rendered city weather) as [e|u].
  - destruct R as (u & R & _). eauto.
  - eauto.
Qed.

(** The conversions of [rendered], one by one. *)
Lemma rendered_fields (city : place) (weather : value) (u : fields) :
  rendered city weather = inr u ->
  let current := field weather "current" in
  exists time direction precipitation speed,
    ToString (formatTimeISOToLocal (field current "time") (field weather "timezone"))
    = inr time /\
    formatNumber (field current "temperature_2m") "°C" = inr (temp u) /\
    weather_code_text (field current "weather_code") = inr (code u) /\
    formatNumber (field current "wind_speed_10m") " km/h" = inr speed /\
    ToString (or_else (field current "wind_direction_10m") (VString "—"))
    = inr direction /\
    formatNumber (field current "relative_humidity_2m") "%" = inr (humidity u) /\
    formatNumber (field current "apparent_temperature") "°C" = inr (apparent u) /\
    formatNumber (field current "pressure_msl") " hPa" = inr (pressure u) /\
    ToString (if negb (nullish (field current "precipitation"))
              then field current "precipitation" else VString "—")
    = inr precipitation /\
    formatNumber (field current "cloud_cover") "%" = inr (cloud u) /\
    location u = name city /\
    obsTime u = "Atualizado: " ++ time /\
    wind u = speed ++ " (" ++ direction ++ "°)" /\
    precip u = precipitation ++ " mm".
Proof.
  unfold rendered. cbv zeta. set (current := field weather "current").
  destruct (ToString (formatTimeISOToLocal _ _)) as [e|time]; cbn; [discriminate|].
  destruct (formatNumber (field current "temperature_2m") _) as [e|t]; cbn; [discriminate|].
  destruct (weather_code_text _) as [e|c]; cbn; [discriminate|].
  destruct (formatNumber (field current "wind_speed_10m") _) as [e|speed];
    cbn; [discriminate|].
  destruct (ToString (or_else _ _)) as [e|direction]; cbn; [discriminate|].
  destruct (formatNumber (field current "relative_humidity_2m") _) as [e|h];
    cbn; [discriminate|].
  destruct (formatNumber (field current "apparent_temperature") _) as [e|a];
    cbn; [discriminate|].
  destruct (formatNumber (field current "pressure_msl") _) as [e|pr];
    cbn; [discriminate|].
  destruct (ToString (if negb (nullish _) then _ else _)) as [e|precipitation];
    cbn; [discriminate|].
  destruct (formatNumber (field current "cloud_cover") _) as [e|cl]; cbn; [discriminate|].
  intros [= <-]. exists time, direction, precipitation, speed. repeat split.
Qed.


(** A payload is displayed exactly when every conversion gives a text. *)
Lemma renderable_rendered (city : place) (weather : value) :
  renderable weather = true
  <-> nullish weather = false /\ nullish (field weather "current") = false /\
      exists u, rendered city weather = inr u.
Proof.
  unfold renderable, has_text. cbn [forallb current_fields].
  set (current := field weather "current").
  destruct (nullish weather); [split; [discriminate|intros [E _]; discriminate E]|].
  destruct (nullish current);
    [split; [discriminate|intros (_ & E & _); discriminate E]|].
  cbn [negb andb].
  assert (T : convertible (field current "time") = true <->
              exists text, ToString (formatTimeISOToLocal (field current "time")
                                       (field weather "timezone")) = inr text).
  { rewrite (formatTimeISOToLocal_convertible _ (field weather "timezone")).
    apply convertible_text. }
  assert (D : convertible (field current "wind_direction_10m") = true <->
              exists text, ToString (or_else (field current "wind_direction_10m")
                                             (VString "—")) = inr text).
  { rewrite <- (or_else_convertible _ "—"). apply convertible_text. }
  assert (P : convertible (field current "precipitation") = true <->
              exists text, ToString (if negb (nullish (field current "precipitation"))
                                     then field current "precipitation"
                                     else VString "—") = inr text).
  { destruct (nullish (field current "precipitation")) eqn:N; cbn [negb].
    - rewrite (nullish_convertible _ N). split; [intros _; eexists|]; reflexivity.
    - apply convertible_text. }
  pose proof (fun k unit => formatNumber_convertible (field current k) unit) as F.
  pose proof (weather_code_text_convertible (field current "weather_code")) as K.
  split.
  - intros B. split; [reflexivity|]. split; [reflexivity|].
    repeat (apply andb_prop in B; destruct B as [? B]).
    unfold rendered. cbv zeta. fold current.
    destruct (proj1 T) as [? ->]; [assumption|]. cbn [and_with].
    destruct (proj1 (F "temperature_2m" "°C")) as [? ->]; [assumption|]. cbn [and_with].
    destruct (proj1 K) as [? ->]; [assumption|]. cbn [and_with].
    destruct (proj1 (F "wind_speed_10m" " km/h")) as [? ->]; [assumption|]. cbn [and_with].
    destruct (proj1 D) as [? ->]; [assumption|]. cbn [and_with].
    destruct (proj1 (F "relative_humidity_2m" "%")) as [? ->]; [assumption|]. cbn [and_with].
    destruct (proj1 (F "apparent_temperature" "°C")) as [? ->]; [assumption|]. cbn [and_with].
    destruct (proj1 (F "pressure_msl" " hPa")) as [? ->]; [assumption|]. cbn [and_with].
    destruct (proj1 P) as [? ->]; [assumption|]. cbn [and_with].
    destruct (proj1 (F "cloud_cover" "%")) as [? ->]; [assumption|]. cbn [and_with].
    eexists. reflexivity.
  - intros (_ & _ & u & R).
    destruct (rendered_fields city weather u R)
      as (time & direction & precipitation & speed
          & E1 & E2 & E3 & E4 & E5 & E6 & E7 & E8 & E9 & E10 & _).
    fold current in E1, E2, E3, E4, E5, E6, E7, E8, E9, E10.
    rewrite (proj2 T), (proj2 (F "temperature_2m" "°C")),
      (proj2 (F "apparent_temperature" "°C")), (proj2 (F "relative_humidity_2m" "%")),
      (proj2 (F "pressure_msl" " hPa")), (proj2 P), (proj2 (F "cloud_cover" "%")),
      (proj2 K), (proj2 (F "wind_speed_10m" " km/h")), (proj2 D); eauto.
Qed.

End Rendering.

(** ** handleSearch *)

(** [geocodeCity] and [getWeather] issue the request they build, once. *)
Lemma geocodeCity_requests (net : network) (query : value) :
  requests net (geocodeCity query tt)
  = match geocode_request query with
    | inr req => [req]
    | inl _ => []
    end.
Proof.
  unfold geocodeCity. destruct (geocode_request query) as [e|req]; cbn; [reflexivity|].
  destruct (net req) as [message|res]; cbn; [reflexivity|].
  destruct (ok res); cbn; [|reflexivity].
  unfold res_json. destruct (json res) as [message|data]; cbn; [reflexivity|].
  read_step. destruct (ToBoolean _); cbn; [|reflexivity].
  read_step. destruct (strict_equal_number _ _); cbn; [reflexivity|].
  read_step. read_step.
  destruct (ToString _); cbn; [reflexivity|].
  read_step.
  match goal with
  | |- context [if ToBoolean ?v then _ else _] =>
      destruct (ToBoolean v); [destruct (ToString v)|]; cbn; try reflexivity
  end;
  (read_step;
   match goal with
   | |- context [if ToBoolean ?v then _ else _] =>
       destruct (ToBoolean v); [destruct (ToString v)|]; cbn; try reflexivity
   end;
   repeat read_step).
Qed.

Lemma getWeather_requests (net : network) (lat lon tz : value) :
  requests net (getWeather lat lon tz tt)
  = match weather_request lat lon tz with
    | inr req => [req]
    | inl _ => []
    end.
Proof.
  unfold getWeather. destruct (weather_request lat lon tz) as [e|req]; cbn; [reflexivity|].
  destruct (net req) as [message|res]; cbn; [reflexivity|].
  destruct (ok res); cbn; [|reflexivity].
  unfold res_json. destruct (json res); reflexivity.
Qed.

Lemma getWeather_by_case (net : network) (lat lon tz : value) :
  completion net (getWeather lat lon tz)
  = match weather_request lat lon tz with
    | inl e => inl e
    | inr req =>
        match net req with
        | Failed message => inl (FetchRejection message)
        | Arrived res =>
            if ok res then
              match json res with
              | NotJSON message => inl (BodyRejection message)
              | JSON data => inr data
              end
            else inl (Error "Falha ao buscar clima")
        end
    end.
Proof.
  unfold completion, getWeather.
  destruct (weather_request lat lon tz) as [e|req]; cbn; [reflexivity|].
  destruct (net req) as [message|res]; cbn; [reflexivity|].
  destruct (ok res); cbn; [|reflexivity].
  unfold res_json. destruct (json res); reflexivity.
Qed.

Section Submission.
Context `{Engine}.

Lemma failure_text_or_else (err : exn) :
  ToString (or_else (or_else (VString (message err)) (VString "Erro ao buscar dados"))
                    (VString ""))
  = inr (failure_text err).
Proof. unfold failure_text. destruct (message err); reflexivity. Qed.

Lemma handleSearch_empty (p : page) :
  trim (input_value p) = "" ->
  handleSearch p = Return (with_defaultPrevented true p, inr tt).
Proof.
  intros E. unfold handleSearch. cbn. rewrite E. reflexivity.
Qed.

Lemma handleSearch_run (net : network) (p : page) :
  trim (input_value p) <> "" ->
  let query := VString (trim (input_value p)) in
  run net (handleSearch p)
  = match completion net (geocodeCity query) with
    | inl err => (failed err (searching_city p), inr tt)
    | inr city =>
        match completion net
                (getWeather (latitude city) (longitude city) (timezone city)) with
        | inl err => (failed err (searching_weather p), inr tt)
        | inr weather =>
            match run net (updateUI city weather (searching_weather p)) with
            | (p', inl err) => (failed err p', inr tt)
            | (p', inr _) => (displaying p', inr tt)
            end
        end
    end.
Proof.
  intros N query. unfold handleSearch, setStatus.
  change (ToString (or_else (VString "Buscando cidade…") (VString "")))
    with (@inr exn string "Buscando cidade…").
  change (ToString (or_else (VString "Buscando clima…") (VString "")))
    with (@inr exn string "Buscando clima…").
  change (ToString (or_else (VString "") (VString ""))) with (@inr exn string "").
  rewrite run_bind. cbn.
  destruct (trim (input_value p)) as [|a q] eqn:Q; [contradiction|].
  change (ToBoolean (VString (String a q))) with true. cbn. fold query.
  rewrite run_try_catch, run_bind, run_await.
  fold (searching_city p).
  destruct (completion net (geocodeCity query)) as [err|city].
  { cbn. rewrite failure_text_or_else. reflexivity. }
  cbn. rewrite run_bind, run_await. fold (searching_weather p).
  destruct (completion net (getWeather _ _ _)) as [err|weather].
  { cbn. rewrite failure_text_or_else. reflexivity. }
  rewrite run_bind.
  destruct (updateUI_settled city weather (searching_weather p)) as (u & r & U).
  rewrite U. cbn. destruct r as [err|[]]; cbn.
  - rewrite failure_text_or_else. reflexivity.
  - reflexivity.
Qed.

Lemma handleSearch_requests (net : network) (p : page) :
  trim (input_value p) <> "" ->
  let query := VString (trim (input_value p)) in
  requests net (handleSearch p)
  = (requests net (geocodeCity query tt)
     ++ match completion net (geocodeCity query) with
        | inl _ => []
        | inr city =>
            requests net (getWeather (latitude city) (longitude city) (timezone city) tt)
        end)%list.
Proof.
  intros N query. unfold handleSearch, setStatus.
  change (ToString (or_else (VString "Buscando cidade…") (VString "")))
    with (@inr exn string "Buscando cidade…").
  change (ToString (or_else (VString "Buscando clima…") (VString "")))
    with (@inr exn string "Buscando clima…").
  change (ToString (or_else (VString "") (VString ""))) with (@inr exn string "").
  rewrite requests_bind. cbn.
  destruct (trim (input_value p)) as [|a q] eqn:Q; [contradiction|].
  change (ToBoolean (VString (String a q))) with true. cbn. fold query.
  rewrite requests_try_catch, requests_bind, requests_await.
  rewrite run_bind, !run_await.
  destruct (completion net (geocodeCity query)) as [err|city].
  { cbn. rewrite failure_text_or_else. cbn. rewrite List.app_nil_r. reflexivity. }
  cbn. rewrite requests_bind, requests_await.
  rewrite run_bind, !run_await.
  destruct (completion net (getWeather _ _ _)) as [err|weather].
  { cbn. rewrite failure_text_or_else. cbn. rewrite !List.app_nil_r. reflexivity. }
  rewrite requests_bind, run_bind.
  match goal with
  | |- context [updateUI city weather ?s] =>
      destruct (updateUI_settled city weather s) as (u & r & U); rewrite U
  end.
  cbn. destruct r as [err|[]]; cbn.
  - rewrite failure_text_or_else. cbn. rewrite !List.app_nil_r. reflexivity.
  - rewrite !List.app_nil_r. reflexivity.
Qed.

End Submission.

Lemma strip_spaces (l : list ascii) :
  forallb space1 l = true -> strip true l = [].
Proof.
  induction l as [|a l IH]; [reflexivity|].
  simpl. intros B. apply andb_prop in B. destruct B as [A B].
  rewrite A. exact (IH B).
Qed.

Section Claims.
Context `{Engine}.

(** C5.  When the trimmed query is empty, [handleSearch] returns at once:
    it issues no request on any network, and the status text, the status
    class, the visibility of the weather section, the ten fields, the
    input and the console are as they were.  A query made of ASCII white
    space alone trims to the empty string. *)
Theorem handleSearch_empty_query :
  (forall (net : network) (p : page), trim (input_value p) = "" ->
     requests net (handleSearch p) = [] /\
     exists p', handleSearch p = Return (p', inr tt) /\
       status_textContent p' = status_textContent p /\
       status_className p' = status_className p /\
       weather_hidden p' = weather_hidden p /\
       ui p' = ui p /\
       input_value p' = input_value p /\
       console p' = console p) /\
  (forall text : string,
     forallb space1 (list_ascii_of_string text) = true -> trim text = "").
Proof.
  split.
  - intros net p E. rewrite (handleSearch_empty p E).
    split; [reflexivity|].
    exists (with_defaultPrevented true p). repeat split.
  - intros text B. unfold trim. rewrite (strip_spaces _ B). reflexivity.
Qed.

(** C6, amended.  When the geocoding call or the weather call of a
    submission fails with [err], the status text becomes the message of
    [err], or ["Erro ao buscar dados"] when that message is empty, with
    class ["status error"]; the weather section is hidden, the ten fields
    are as before the submission, and [err] is logged.  When the
    geocoding endpoint finds nothing the status reads
    ["Cidade não encontrada"]. *)
Theorem handleSearch_failure (net : network) (p : page) (err : exn) :
  trim (input_value p) <> "" ->
  let query := VString (trim (input_value p)) in
  (completion net (geocodeCity query) = inl err \/
   exists city, completion net (geocodeCity query) = inr city /\
     completion net (getWeather (latitude city) (longitude city) (timezone city))
     = inl err) ->
  let p' := fst (run net (handleSearch p)) in
  status_textContent p'
  = (if String.eqb (message err) "" then "Erro ao buscar dados" else message err) /\
  (message err <> "" -> status_textContent p' = message err) /\
  (NotFoundError err -> status_textContent p' = "Cidade não encontrada") /\
  status_className p' = "status error" /\
  weather_hidden p' = true /\
  ui p' = ui p /\
  console p' = err :: console p.
Proof.
  intros N query F p'.
  assert (P : p' = failed err (searching_city p)
              \/ p' = failed err (searching_weather p)).
  { unfold p'. rewrite (handleSearch_run net p N). fold query.
    destruct F as [G|(city & G & W)]; rewrite G; [now left|].
    rewrite W. now right. }
  assert (T : status_textContent p' = failure_text err)
    by (destruct P as [-> | ->]; reflexivity).
  split; [exact T|]. split; [|split].
  - intros M. rewrite T. unfold failure_text.
    destruct (String.eqb_spec (message err) ""); [contradiction|reflexivity].
  - intros ->. rewrite T. reflexivity.
  - destruct P as [-> | ->]; repeat split.
Qed.

(** C7, amended.  When the payload has a [current] object whose time and
    nine values have a text, [updateUI] returns, having overwritten the
    ten fields and nothing else of the page: the location with the name
    of the place; the observation time with the time formatter's text
    after ["Atualizado: "]; temperature, apparent temperature, humidity,
    pressure, cloud cover and wind speed with [formatNumber] of the
    value; the condition with the code lookup.  The wind direction and
    the precipitation do not go through [formatNumber]: the wind field
    ends with the text of the wind direction itself when that is truthy
    and with the placeholder when it is [null] or missing; the
    precipitation field holds the text of the precipitation itself, or
    the placeholder when it is [null] or missing, before [" mm"]. *)
Theorem updateUI_fields (city : place) (weather : value) (p : page) :
  renderable weather = true ->
  let current := field weather "current" in
  let direction := field current "wind_direction_10m" in
  let precipitation := field current "precipitation" in
  exists p', updateUI city weather p = Return (p', inr tt) /\
    location (ui p') = name city /\
    (exists time,
       ToString (formatTimeISOToLocal (field current "time") (field weather "timezone"))
       = inr time /\
       obsTime (ui p') = "Atualizado: " ++ time) /\
    formatNumber (field current "temperature_2m") "°C" = inr (temp (ui p')) /\
    weather_code_text (field current "weather_code") = inr (code (ui p')) /\
    (exists speed,
       formatNumber (field current "wind_speed_10m") " km/h" = inr speed /\
       (ToBoolean direction = true ->
        exists text, ToString direction = inr text /\
          wind (ui p') = speed ++ " (" ++ text ++ "°)") /\
       (nullish direction = true -> wind (ui p') = speed ++ " (—°)")) /\
    formatNumber (field current "relative_humidity_2m") "%" = inr (humidity (ui p')) /\
    formatNumber (field current "apparent_temperature") "°C" = inr (apparent (ui p')) /\
    formatNumber (field current "pressure_msl") " hPa" = inr (pressure (ui p')) /\
    (nullish precipitation = false ->
     exists text, ToString precipitation = inr text /\ precip (ui p') = text ++ " mm") /\
    (nullish precipitation = true -> precip (ui p') = "— mm") /\
    formatNumber (field current "cloud_cover") "%" = inr (cloud (ui p')) /\
    input_value p' = input_value p /\
    status_textContent p' = status_textContent p /\
    status_className p' = status_className p /\
    weather_hidden p' = weather_hidden p /\
    console p' = console p.
Proof.
  intros R current direction precipitation.
  apply (renderable_rendered city) in R. destruct R as (W & C & u & R).
  pose proof (updateUI_rendered city weather p W C) as U. rewrite R in U.
  destruct (rendered_fields city weather u R)
    as (time & d & pr & speed
        & E1 & E2 & E3 & E4 & E5 & E6 & E7 & E8 & E9 & E10 & L & O & Wi & P).
  fold current in E1, E2, E3, E4, E5, E6, E7, E8, E9, E10.
  fold direction in E5. fold precipitation in E9.
  exists (map_ui (fun _ => u) p). split; [exact U|].
  change (ui (map_ui (fun _ => u) p)) with u.
  split; [exact L|]. split; [exists time; now split|].
  split; [exact E2|]. split; [exact E3|].
  split.
  { exists speed. split; [exact E4|]. split.
    - intros T. unfold or_else in E5. rewrite T in E5. exists d. now split.
    - intros N. rewrite Wi. unfold or_else in E5.
      destruct direction; try discriminate N; injection E5 as <-; reflexivity. }
  split; [exact E6|]. split; [exact E7|]. split; [exact E8|].
  split.
  { intros N. rewrite N in E9. exists pr. now split. }
  split.
  { intros N. rewrite N in E9. injection E9 as <-. exact P. }
  split; [exact E10|]. repeat split.
Qed.

(** C9.  In a submission with a query that is not empty, the first thing
    [handleSearch] awaits is the geocoding request; on every network the
    requests issued are that one, followed by the weather request for the
    place found when [geocodeCity] returned one and its coordinates and
    time zone have a text, and by nothing otherwise: no weather request
    is issued when [geocodeCity] threw. *)
Theorem weather_after_geocoding (net : network) (p : page) :
  trim (input_value p) <> "" ->
  let query := VString (trim (input_value p)) in
  exists req, geocode_request query = inr req /\
    (exists k, handleSearch p = Await req k) /\
    requests net (handleSearch p)
    = req :: match completion net (geocodeCity query) with
             | inl _ => []
             | inr city =>
                 match weather_request (latitude city) (longitude city)
                                       (timezone city) with
                 | inr asked => [asked]
                 | inl _ => []
                 end
             end.
Proof.
  intros N query. eexists. split; [exact (geocode_request_text _)|]. split.
  - unfold query. destruct (trim (input_value p)) as [|a q] eqn:Q; [contradiction|].
    unfold handleSearch, setStatus, bind, modify, gets, lift.
    cbn -[geocode_request]. rewrite Q.
    change (ToBoolean (VString (String a q))) with true.
    cbn -[geocode_request]. unfold try_catch, await, geocodeCity, bind, fetch, lift.
    cbn. eexists. reflexivity.
  - rewrite (handleSearch_requests net p N). fold query.
    rewrite geocodeCity_requests. unfold query at 1. rewrite geocode_request_text.
    cbn [app]. f_equal.
    destruct (completion net (geocodeCity query)) as [err|city]; [reflexivity|].
    apply getWeather_requests.
Qed.

(** C10, amended.  For a payload on which [updateUI] gets as far as the
    wind field (a [current] object whose time, temperature, weather code
    and wind speed have a text) and whose wind direction is a zero,
    [updateUI] writes the placeholder in its place, so that the wind
    field ends in ["(—°)"]; for a wind direction that is a Number other
    than zero it writes the text of that Number before the degree sign.
    When the payload can be displayed as a whole, [updateUI] returns. *)
Theorem wind_direction_zero_is_placeholder
    (city : place) (weather : value) (p : page) (direction : number) :
  reaches_wind weather = true ->
  let current := field weather "current" in
  field current "wind_direction_10m" = VNumber direction ->
  exists p' r speed, updateUI city weather p = Return (p', r) /\
    formatNumber (field current "wind_speed_10m") " km/h" = inr speed /\
    ((exists s, direction = S754_zero s) -> wind (ui p') = speed ++ " (—°)") /\
    (nonzero direction = true ->
     wind (ui p') = speed ++ " (" ++ Number_toString direction ++ "°)") /\
    (renderable weather = true -> r = inr tt).
Proof.
  intros R current D.
  unfold reaches_wind, has_text in R. cbn [forallb] in R. fold current in R.
  apply andb_prop in R. destruct R as [R R1].
  apply andb_prop in R. destruct R as [W C].
  apply andb_prop in R1. destruct R1 as [R1 R2].
  apply andb_prop in R2. destruct R2 as [R2 R3].
  apply andb_prop in R3. destruct R3 as [R3 R4].
  apply andb_prop in R4. destruct R4 as [R4 _].
  apply negb_true_iff in W, C.
  apply (formatTimeISOToLocal_convertible _ (field weather "timezone")) in R1.
  apply convertible_text in R1. destruct R1 as [time E1].
  apply (formatNumber_convertible _ "°C") in R2. destruct R2 as [temp E2].
  apply weather_code_text_convertible in R3. destruct R3 as [code E3].
  apply (formatNumber_convertible _ " km/h") in R4. destruct R4 as [speed E4].
  assert (U : exists u r,
             updateUI city weather p = Return (map_ui (fun _ => u) p, r) /\
             exists text, ToString (or_else (VNumber direction) (VString "—")) = inr text
                          /\ wind u = speed ++ " (" ++ text ++ "°)").
  { unfold updateUI, write, read, lift, assign, modify.
    rewrite !(get_field weather _ W). cbn.
    rewrite !(get_field _ _ C). cbn. fold current.
    rewrite E1. cbn. rewrite E2. cbn. rewrite E3. cbn. rewrite E4, D. cbn.
    destruct (ToString (or_else (VNumber direction) (VString "—"))) as [e|text] eqn:E5.
    { exfalso. unfold or_else in E5.
      destruct (ToBoolean (VNumber direction)); discriminate E5. }
    cbn.
    destruct (formatNumber (field current "relative_humidity_2m") _) as [e|humidity];
      cbn; [eexists; eexists; split; [reflexivity|eauto]|].
    destruct (formatNumber (field current "apparent_temperature") _) as [e|apparent];
      cbn; [eexists; eexists; split; [reflexivity|eauto]|].
    destruct (formatNumber (field current "pressure_msl") _) as [e|pressure];
      cbn; [eexists; eexists; split; [reflexivity|eauto]|].
    destruct (ToString (if negb (nullish _) then _ else _)) as [e|precipitation];
      cbn; [eexists; eexists; split; [reflexivity|eauto]|].
    destruct (formatNumber (field current "cloud_cover") _) as [e|cloud];
      cbn; eexists; eexists; (split; [reflexivity|eauto]). }
  destruct U as (u & r & U & text & E5 & Wi).
  exists (map_ui (fun _ => u) p), r, speed.
  split; [exact U|]. split; [exact E4|].
  change (ui (map_ui (fun _ => u) p)) with u. rewrite Wi.
  split; [|split].
  - intros [s ->]. injection E5 as <-. reflexivity.
  - intros Z. destruct direction; try discriminate Z; injection E5 as <-; reflexivity.
  - intros B. apply (renderable_rendered city) in B. destruct B as (_ & _ & u' & B).
    pose proof (updateUI_rendered city weather p W C) as V. rewrite B in V.
    rewrite V in U. injection U as _ <-. reflexivity.
Qed.

End Claims.

(** C7 as it is worded does not hold.  With a precipitation of 0.3 and a
    wind direction of 0 the precipitation field reads ["0.3 mm"] where
    [formatNumber] gives ["0 mm"], and the wind field ends in ["(—°)"]
    where [formatNumber] gives ["0"].  And a payload whose weather code
    is an object with a property [toString] makes [updateUI] throw after
    three fields: the seven others are left as they were. *)
Lemma updateUI_formatter_counterexample :
  let p := Sample.page_with "São Paulo" in
  let p' := fst (run Sample.net
                   (@updateUI Sample.engine Sample.city Sample.weather_body p)) in
  let coded := Sample.weather_with "weather_code" Sample.opaque in
  let q := run Sample.net (@updateUI Sample.engine Sample.city coded p) in
  (precip (ui p') = "0.3 mm" /\
   @formatNumber Sample.engine (field Sample.current "precipitation") " mm"
   = inr "0 mm" /\
   wind (ui p') = "7 km/h (—°)" /\
   @formatNumber Sample.engine (field Sample.current "wind_direction_10m") ""
   = inr "0" /\
   inr (ui p') <> @rendered_by_formatter Sample.engine Sample.city Sample.weather_body) /\
  (nullish (field coded "current") = false /\
   snd q = inl (NotConvertible Sample.opaque) /\
   temp (ui (fst q)) = "22°C" /\
   code (ui (fst q)) = code (ui p) /\ cloud (ui (fst q)) = cloud (ui p)).
Proof.
  cbv zeta. split.
  - repeat split; try (vm_compute; reflexivity).
    intros E. vm_compute in E. discriminate E.
  - repeat split; vm_compute; reflexivity.
Qed.

(** C6 as it is worded does not hold: when the transport fails with an
    error whose message is empty, the status text is not that message but
    ["Erro ao buscar dados"]. *)
Lemma handleSearch_empty_message_counterexample :
  let p := Sample.page_with "São Paulo" in
  let err := FetchRejection "" in
  let p' := fst (run Sample.net_down (@handleSearch Sample.engine p)) in
  completion Sample.net_down (geocodeCity (VString (trim (input_value p)))) = inl err /\
  status_textContent p' = "Erro ao buscar dados" /\
  status_textContent p' <> @message Sample.engine err.
Proof.
  cbv zeta. split; [vm_compute; reflexivity|].
  split; [vm_compute; reflexivity|].
  vm_compute. discriminate.
Qed.

(** C4 as it is worded does not hold.  A response of status 200 whose
    body is no JSON text is neither a response without results nor a
    failed call, and [geocodeCity] returns no place for it; nor does it
    for a response whose first result has an object with a property
    [toString] for name. *)
Lemma geocodeCity_portal_counterexample :
  let query := VString "São Paulo" in
  exists req, geocode_request query = inr req /\
    (let o := Sample.net_portal req in
     ~ zero_results o /\ ~ call_failed o /\
     completion Sample.net_portal (geocodeCity query)
     = inl (BodyRejection "Unexpected token '<'")) /\
    (let net := fun _ => Sample.fulfilled
                  (VObject [ ("results", VArray [ VObject [ ("name", Sample.opaque) ] ]) ]) in
     ~ zero_results (net req) /\ ~ call_failed (net req) /\
     completion net (geocodeCity query) = inl (NotConvertible Sample.opaque)).
Proof.
  cbv zeta. eexists. split; [reflexivity|]. split; (split; [|split]).
  - intros (data & E & _). discriminate E.
  - intros [[m E]|(res & [= <-] & E)]; discriminate E.
  - reflexivity.
  - intros (data & [= <-] & [E|E]); discriminate E.
  - intros [[m E]|(res & [= <-] & E)]; discriminate E.
  - reflexivity.
Qed.

(** C1 as it is worded does not hold.  A [results] array that is not
    empty gives no place when its first element is [null], or has an
    object with a property [toString] for name: [geocodeCity] throws a
    TypeError. *)
Lemma geocodeCity_first_result_counterexample :
  let answer := fun data : value => (fun _ : request => Sample.fulfilled data) in
  let none := VObject [ ("results", VArray [ VNull; Sample.sao_paulo ]) ] in
  let unnamed := VObject [ ("results", VArray [ VObject [ ("name", Sample.opaque) ] ]) ] in
  get none "results" = inr (VArray [ VNull; Sample.sao_paulo ]) /\
  completion (answer none) (geocodeCity (VString "São Paulo"))
  = inl (TypeError VNull "name") /\
  get unnamed "results" = inr (VArray [ VObject [ ("name", Sample.opaque) ] ]) /\
  completion (answer unnamed) (geocodeCity (VString "São Paulo"))
  = inl (NotConvertible Sample.opaque).
Proof. cbv zeta. repeat split. Qed.

(** C10 as it is worded does not hold: a payload whose wind direction is
    0 and whose weather code is an object with a property [toString]
    makes [updateUI] throw before the wind field, which stays as it
    was. *)
Lemma updateUI_wind_counterexample :
  let weather := Sample.weather_with "weather_code" Sample.opaque in
  let p := Sample.page_with "São Paulo" in
  let q := run Sample.net (@updateUI Sample.engine Sample.city weather p) in
  field (field weather "current") "wind_direction_10m" = VNumber (ofZ 0) /\
  snd q = inl (NotConvertible Sample.opaque) /\
  wind (ui (fst q)) = wind (ui p) /\
  wind (ui p) = "—".
Proof. cbv zeta. repeat split; vm_compute; reflexivity. Qed.

(** * Further properties *)

(** ** getWeather *)

Lemma weather_request_convertible (lat lon tz : value) :
  convertible lat && convertible lon && convertible tz = true
  <-> exists req, weather_request lat lon tz = inr req.
Proof.
  unfold weather_request. rewrite <- (or_else_convertible tz "auto").
  unfold convertible.
  destruct (ToString lat) as [e|a]; cbn [and_with andb].
  { split; [discriminate|intros [req E]; discriminate E]. }
  destruct (ToString lon) as [e|b]; cbn [and_with andb].
  { split; [discriminate|intros [req E]; discriminate E]. }
  destruct (ToString (or_else tz (VString "auto"))) as [e|c]; cbn [and_with andb].
  { split; [discriminate|intros [req E]; discriminate E]. }
  split; [intros _; eexists|]; reflexivity.
Qed.

(** X1.  [getWeather] asks nothing and throws a TypeError when an
    argument has no text.  Otherwise it fails with
    ["Falha ao buscar clima"] exactly when a response arrives with a
    status outside 200-299; it fails with the rejection of [fetch] when
    none arrives and with the rejection of [res.json()] when the body is
    no JSON text; in every other case it returns the parsed body as it
    is, whatever it holds, [null] included. *)
Theorem getWeather_outcomes (net : network) (lat lon tz : value) :
  let c := completion net (getWeather lat lon tz) in
  (convertible lat && convertible lon && convertible tz = true
   <-> exists req, weather_request lat lon tz = inr req) /\
  (forall e, weather_request lat lon tz = inl e ->
     c = inl e /\ requests net (getWeather lat lon tz tt) = [] /\
     exists target, e = NotConvertible target) /\
  (forall req, weather_request lat lon tz = inr req ->
     let o := net req in
     (c = inl (Error "Falha ao buscar clima")
      <-> exists res, o = Arrived res /\ ok res = false) /\
     (forall message, o = Failed message -> c = inl (FetchRejection message)) /\
     (forall res message, o = Arrived res -> ok res = true ->
        json res = NotJSON message -> c = inl (BodyRejection message)) /\
     (forall data, c = inr data
      <-> exists res, o = Arrived res /\ ok res = true /\ json res = JSON data)).
Proof.
  intros c. pose proof (getWeather_by_case net lat lon tz) as C. fold c in C.
  split; [apply weather_request_convertible|]. split.
  - intros e E. rewrite E in C. split; [exact C|].
    split; [rewrite getWeather_requests, E; reflexivity|].
    unfold weather_request in E.
    destruct (ToString lat) as [e1|a] eqn:E1; cbn [and_with] in E.
    { injection E as <-. exact (ToString_throws _ _ E1). }
    destruct (ToString lon) as [e2|b] eqn:E2; cbn [and_with] in E.
    { injection E as <-. exact (ToString_throws _ _ E2). }
    destruct (ToString (or_else tz (VString "auto"))) as [e3|t] eqn:E3;
      cbn [and_with] in E; [|discriminate E].
    injection E as <-. exact (ToString_throws _ _ E3).
  - intros req E o. rewrite E in C. fold o in C. rewrite C. clear C.
    split; [|split; [|split]].
    + split.
      * destruct o as [m|res]; [discriminate|].
        destruct (ok res) eqn:K; [destruct (json res); discriminate|eauto].
      * intros (res & -> & K). rewrite K. reflexivity.
    + intros message ->. reflexivity.
    + intros res message -> K J. rewrite K, J. reflexivity.
    + intros data. split.
      * destruct o as [m|res]; [discriminate|].
        destruct (ok res) eqn:K; [|discriminate].
        destruct (json res) as [m|d] eqn:J; [discriminate|].
        intros [= ->]. eauto.
      * intros (res & -> & K & J). rewrite K, J. reflexivity.
Qed.

(** X2.  [geocodeCity] and [getWeather] issue at most one request,
    whatever the network answers: the one they build, and none when an
    argument has no text; neither retries nor asks twice.  For a query
    that is a string the geocoding request asks for that text, in
    Portuguese, one result. *)
Theorem one_request_each (net : network) :
  (forall query : value,
     requests net (geocodeCity query tt)
     = match geocode_request query with
       | inr req => [req]
       | inl _ => []
       end) /\
  (forall text : string,
     exists req, geocode_request (VString text) = inr req /\
       requests net (geocodeCity (VString text) tt) = [req] /\
       searchParams req = [("name", text); ("language", "pt"); ("count", "1")]) /\
  (forall lat lon tz : value,
     requests net (getWeather lat lon tz tt)
     = match weather_request lat lon tz with
       | inr req => [req]
       | inl _ => []
       end).
Proof.
  split; [intros query; apply geocodeCity_requests|]. split.
  - intros text. eexists. split; [apply geocode_request_text|].
    split; [rewrite geocodeCity_requests, geocode_request_text|]; reflexivity.
  - intros lat lon tz. apply getWeather_requests.
Qed.

(** X3.  [geocodeCity] checks no field of the result it takes, so long
    as the parts of the name have a text: a first result without [name],
    [admin1] and [country] gives a place named ["undefined"], and its
    coordinates and time zone are passed on as they are, missing ones as
    [undefined]. *)
Theorem geocodeCity_unchecked_fields
    (net : network) (query data r : value) (req : request) (rest : list value) :
  geocode_request query = inr req ->
  net req = Arrived {| ok := true; json := JSON data |} ->
  get data "results" = inr (VArray (r :: rest)) ->
  nullish r = false ->
  nameable r = true ->
  exists found, completion net (geocodeCity query) = inr found /\
    latitude found = field r "latitude" /\
    longitude found = field r "longitude" /\
    timezone found = field r "timezone" /\
    (field r "name" = VUndefined -> field r "admin1" = VUndefined ->
     field r "country" = VUndefined -> name found = "undefined").
Proof.
  intros Q A G N P. pose proof (geocodeCity_by_case net query req Q) as C.
  assert (M : classify (net req) = Match r).
  { apply classify_Match. exists data.
    split; [rewrite A; eexists; repeat split|].
    split; [exact (classify_array data r rest G)|exact N]. }
  rewrite M in C. cbv zeta in C.
  apply place_of_nameable in P. destruct P as [found P].
  exists found. split; [congruence|].
  unfold place_of, segment in P.
  destruct (ToString (field r "name")) as [e|n] eqn:En; cbn [and_with] in P;
    [discriminate P|].
  destruct (if ToBoolean (field r "admin1") then _ else _) as [e|a] eqn:Ea;
    cbn [and_with] in P; [discriminate P|].
  destruct (if ToBoolean (field r "country") then _ else _) as [e|c] eqn:Ec;
    cbn [and_with] in P; [discriminate P|].
  injection P as <-. repeat split.
  intros Hn Ha Hc. cbn [name]. rewrite Hn in En. rewrite Ha in Ea. rewrite Hc in Ec.
  injection En as <-. injection Ea as <-. injection Ec as <-. reflexivity.
Qed.

(** ** The table *)

Lemma weather_code_text_ofZ `{Engine} (z : Z) :
  (Z.abs z <= MAX_SAFE_INTEGER)%Z ->
  weather_code_text (VNumber (ofZ z))
  = inr match description_of z with
        | Some description => description
        | None => "Código " ++ showZ z
        end.
Proof.
  intros B. unfold weather_code_text.
  change (ToString (VNumber (ofZ z))) with (@inr exn string (Number_toString (ofZ z))).
  cbn [and_with]. rewrite (Number_toString_ofZ z B).
  unfold WEATHER_CODE_MAP at 1. rewrite lookup_showZ. fold (description_of z).
  destruct (description_of z) as [d|] eqn:D.
  - assert (L : lookup (showZ z) WEATHER_CODE_MAP = Some d).
    { unfold WEATHER_CODE_MAP. rewrite lookup_showZ. exact D. }
    unfold or_else. rewrite (WEATHER_CODE_MAP_truthy _ _ L). reflexivity.
  - rewrite (numeric_not_inherited _ (numeric_head_or_empty _ (showZ_numeric z))).
    reflexivity.
Qed.

Lemma description_of_In (z : Z) (d : string) :
  description_of z = Some d -> In (z, d) WEATHER_CODES.
Proof.
  unfold description_of.
  destruct (find _ WEATHER_CODES) as [[k d']|] eqn:F; [|discriminate].
  intros [= <-]. apply find_some in F. destruct F as [I E].
  apply Z.eqb_eq in E. simpl in E. subst k. exact I.
Qed.

(** No two entries of the table hold the same description, and none
    starts as the fallback does. *)
Lemma WEATHER_CODES_distinct (a b : Z) (d : string) :
  In (a, d) WEATHER_CODES -> In (b, d) WEATHER_CODES -> a = b.
Proof.
  unfold WEATHER_CODES. simpl. intros A B.
  repeat (destruct A as [A|A];
          [injection A as <- <-;
           repeat (destruct B as [B|B]; [congruence|]); contradiction|]).
  contradiction.
Qed.

Lemma WEATHER_CODES_not_fallback (a : Z) (s : string) :
  ~ In (a, "Código " ++ s) WEATHER_CODES.
Proof.
  unfold WEATHER_CODES. simpl. intros A.
  repeat (destruct A as [A|A]; [discriminate A|]). contradiction.
Qed.

(** X4.  Two different integer codes are never displayed alike: the
    descriptions of the table are pairwise different, none reads as the
    fallback, and the fallback shows the code. *)
Theorem weather_code_text_injective `{Engine} (a b : Z) :
  (Z.abs a <= MAX_SAFE_INTEGER)%Z ->
  (Z.abs b <= MAX_SAFE_INTEGER)%Z ->
  weather_code_text (VNumber (ofZ a)) = weather_code_text (VNumber (ofZ b)) ->
  a = b.
Proof.
  intros A B. rewrite (weather_code_text_ofZ a A), (weather_code_text_ofZ b B).
  intros E. injection E as E. revert E.
  destruct (description_of a) as [da|] eqn:Da;
    destruct (description_of b) as [db|] eqn:Db.
  - intros <-. apply description_of_In in Da, Db.
    exact (WEATHER_CODES_distinct a b da Da Db).
  - intros ->. apply description_of_In in Da.
    destruct (WEATHER_CODES_not_fallback _ _ Da).
  - intros <-. apply description_of_In in Db.
    destruct (WEATHER_CODES_not_fallback _ _ Db).
  - intros E. apply showZ_inj.
    simpl in E. congruence.
Qed.

(** ** formatNumber *)

(** X5.  A value that rounds to zero is shown as ["0"], from either
    side: for a finite Number [x] with [-1/2 <= x < 1/2], and so for a
    temperature just below zero, [formatNumber] gives ["0"] and the unit,
    never a minus sign. *)
Theorem formatNumber_no_negative_zero `{Engine} (x : number) (unit : string) :
  is_finite x = true ->
  - (1 # 2) <= toQ x -> toQ x < 1 # 2 ->
  formatNumber (VNumber x) unit = inr ("0" ++ unit).
Proof.
  intros F L U. destruct x as [s|s| |s m e]; try discriminate F; [reflexivity|].
  destruct (Math_round_finite s m e) as (r & Lr & Ur & _ & P).
  assert (R : r = 0%Z).
  { assert (A : inject_Z r < 1) by lra.
    assert (B : -1 < inject_Z r) by lra.
    unfold Qlt in A, B. simpl in A, B. lia. }
  subst r.
  change (formatNumber (VNumber (S754_finite s m e)) unit)
    with (@inr exn string (Number_toString (Math_round (S754_finite s m e)) ++ unit)).
  rewrite P by (vm_compute; discriminate). reflexivity.
Qed.

(** ** updateUI and handleSearch on every payload *)

Section Payloads.
Context `{Engine}.

(** What [updateUI] returned with is what [rendered] gives. *)
Lemma updateUI_returns (city : place) (weather : value) (p p' : page) :
  updateUI city weather p = Return (p', inr tt) ->
  nullish weather = false /\ nullish (field weather "current") = false /\
  exists u, rendered city weather = inr u /\ p' = map_ui (fun _ => u) p.
Proof.
  intros U.
  destruct (nullish weather) eqn:W.
  { rewrite (updateUI_no_payload city weather p W) in U. discriminate U. }
  destruct (nullish (field weather "current")) eqn:C.
  { rewrite (updateUI_no_current city weather p W C) in U. discriminate U. }
  split; [reflexivity|]. split; [reflexivity|].
  pose proof (updateUI_rendered city weather p W C) as R.
  destruct (rendered city weather) as [e|u].
  - destruct R as (u & R & _). rewrite R in U. discriminate U.
  - rewrite R in U. injection U as <-. eauto.
Qed.


(** X7.  When both calls succeed and the payload has a [current] object
    whose time and nine values have a text, the submission ends
    displaying: the status text is empty with class ["status info"], the
    weather section is shown, the ten fields are those of the payload,
    nothing is logged and the input is as typed.  The page before the
    submission shows through in nothing but its input and its console. *)
Theorem handleSearch_displays (net : network) (p : page) (city : place) (weather : value) :
  trim (input_value p) <> "" ->
  completion net (geocodeCity (VString (trim (input_value p)))) = inr city ->
  completion net (getWeather (latitude city) (longitude city) (timezone city))
  = inr weather ->
  renderable weather = true ->
  exists u, rendered city weather = inr u /\
    run net (handleSearch p)
    = ({| input_value := input_value p;
          status_textContent := "";
          status_className := "status info";
          weather_hidden := false;
          ui := u;
          console := console p;
          defaultPrevented := true |}, inr tt).
Proof.
  intros N G W R. apply (renderable_rendered city) in R. destruct R as (Nw & Nc & u & R).
  exists u. split; [exact R|].
  rewrite (handleSearch_run net p N). cbv zeta. rewrite G, W.
  pose proof (updateUI_rendered city weather (searching_weather p) Nw Nc) as U.
  rewrite R in U. rewrite U. reflexivity.
Qed.

(** X8.  When the weather call returns a payload that [updateUI] cannot
    read, the submission ends as a failed one, with the TypeError logged
    and its message as status and the weather section hidden.  For a
    payload that is [null] the ten fields are as before; for a payload
    without a [current] object the location has already been overwritten
    with the new place while the nine other fields still hold the old
    values. *)
Theorem handleSearch_unreadable_payload
    (net : network) (p : page) (city : place) (weather : value) :
  trim (input_value p) <> "" ->
  completion net (geocodeCity (VString (trim (input_value p)))) = inr city ->
  completion net (getWeather (latitude city) (longitude city) (timezone city))
  = inr weather ->
  let p' := fst (run net (handleSearch p)) in
  (nullish weather = true ->
   console p' = TypeError weather "current" :: console p /\
   status_textContent p' = failure_text (TypeError weather "current") /\
   status_className p' = "status error" /\
   weather_hidden p' = true /\
   ui p' = ui p) /\
  (nullish weather = false -> nullish (field weather "current") = true ->
   console p' = TypeError (field weather "current") "time" :: console p /\
   status_textContent p' = failure_text (TypeError (field weather "current") "time") /\
   status_className p' = "status error" /\
   weather_hidden p' = true /\
   ui p' = set_textContent Location (name city) (ui p)).
Proof.
  intros N G W p'. unfold p'. rewrite (handleSearch_run net p N). cbv zeta.
  rewrite G, W. split.
  - intros Nw. rewrite (updateUI_no_payload city weather _ Nw). repeat split.
  - intros Nw Nc. rewrite (updateUI_no_current city weather _ Nw Nc). repeat split.
Qed.

(** X9.  [handleSearch] never rejects and never ends while searching.
    On every network and every page the promise is fulfilled and the
    input is left as typed.  A submission with a query ends in one of two
    ways: displaying (section shown, status empty, class
    ["status info"], console as before), or failed (section hidden, class
    ["status error"], one error logged and its text as status). *)
Theorem handleSearch_ends (net : network) (p : page) :
  let p' := fst (run net (handleSearch p)) in
  snd (run net (handleSearch p)) = inr tt /\
  input_value p' = input_value p /\
  (trim (input_value p) <> "" ->
   (weather_hidden p' = false /\ status_textContent p' = "" /\
    status_className p' = "status info" /\ console p' = console p)
   \/
   (weather_hidden p' = true /\ status_className p' = "status error" /\
    exists err, console p' = err :: console p /\
                status_textContent p' = failure_text err)).
Proof.
  intros p'. unfold p'.
  destruct (string_dec (trim (input_value p)) "") as [E|N].
  { rewrite (handleSearch_empty p E). repeat split. contradiction. }
  rewrite (handleSearch_run net p N). cbv zeta.
  destruct (completion net (geocodeCity _)) as [err|city].
  { split; [reflexivity|]. split; [reflexivity|]. intros _. right.
    repeat split. exists err. split; reflexivity. }
  destruct (completion net (getWeather _ _ _)) as [err|weather].
  { split; [reflexivity|]. split; [reflexivity|]. intros _. right.
    repeat split. exists err. split; reflexivity. }
  destruct (updateUI_settled city weather (searching_weather p)) as (u & r & U).
  rewrite U. cbn. destruct r as [err|[]]; cbn.
  - split; [reflexivity|]. split; [reflexivity|]. intros _. right.
    repeat split. exists err. split; reflexivity.
  - split; [reflexivity|]. split; [reflexivity|]. intros _. left.
    repeat split.
Qed.

(** X10.  The weather request of a submission is made of the first
    result as it came: the texts of its latitude, longitude and time zone
    go into the query unchecked.  A result without coordinates asks for
    the latitude ["undefined"], and a result without a time zone asks for
    ["auto"].  When one of the three has no text, the geocoding request
    is the only one. *)
Theorem weather_request_of_first_result
    (net : network) (p : page) (data r : value) (req : request) (rest : list value) :
  trim (input_value p) <> "" ->
  let query := VString (trim (input_value p)) in
  geocode_request query = inr req ->
  net req = Arrived {| ok := true; json := JSON data |} ->
  get data "results" = inr (VArray (r :: rest)) ->
  nullish r = false ->
  nameable r = true ->
  let asking :=
    weather_request (field r "latitude") (field r "longitude") (field r "timezone") in
  (forall e, asking = inl e -> requests net (handleSearch p) = [req]) /\
  (forall asked, asking = inr asked ->
     requests net (handleSearch p) = [req; asked] /\
     (exists text, ToString (field r "latitude") = inr text /\
        lookup "latitude" (searchParams asked) = Some text) /\
     (exists text, ToString (field r "longitude") = inr text /\
        lookup "longitude" (searchParams asked) = Some text) /\
     (field r "latitude" = VUndefined ->
      lookup "latitude" (searchParams asked) = Some "undefined") /\
     (ToBoolean (field r "timezone") = false ->
      lookup "timezone" (searchParams asked) = Some "auto") /\
     (ToBoolean (field r "timezone") = true ->
      exists text, ToString (field r "timezone") = inr text /\
        lookup "timezone" (searchParams asked) = Some text)).
Proof.
  intros N query Q A G Nr P asking.
  destruct (geocodeCity_unchecked_fields net query data r req rest Q A G Nr P)
    as (found & C & La & Lo & Tz & _).
  assert (R : requests net (handleSearch p)
              = req :: match asking with inr asked => [asked] | inl _ => [] end).
  { rewrite (handleSearch_requests net p N). fold query.
    rewrite geocodeCity_requests, Q, C, getWeather_requests, La, Lo, Tz. reflexivity. }
  split.
  - intros e E. rewrite R, E. reflexivity.
  - intros asked E. split; [rewrite R, E; reflexivity|].
    unfold asking, weather_request in E.
    destruct (ToString (field r "latitude")) as [e|a] eqn:Ea; cbn [and_with] in E;
      [discriminate E|].
    destruct (ToString (field r "longitude")) as [e|b] eqn:Eb; cbn [and_with] in E;
      [discriminate E|].
    destruct (ToString (or_else (field r "timezone") (VString "auto"))) as [e|c] eqn:Ec;
      cbn [and_with] in E; [discriminate E|].
    injection E as <-.
    split; [exists a; split; reflexivity|].
    split; [exists b; split; reflexivity|].
    split.
    { intros U. rewrite U in Ea. injection Ea as <-. reflexivity. }
    unfold or_else in Ec. split.
    + intros T. rewrite T in Ec. injection Ec as <-. reflexivity.
    + intros T. rewrite T in Ec. exists c. split; [exact Ec|reflexivity].
Qed.

(** ** The listener of DOMContentLoaded *)

Lemma handleSearch_input (net : network) (p : page) :
  input_value (fst (run net (handleSearch p))) = input_value p.
Proof.
  destruct (string_dec (trim (input_value p)) "") as [E|N].
  { rewrite (handleSearch_empty p E). reflexivity. }
  rewrite (handleSearch_run net p N). cbv zeta.
  destruct (completion net (geocodeCity _)) as [err|city]; [reflexivity|].
  destruct (completion net (getWeather _ _ _)) as [err|weather]; [reflexivity|].
  destruct (updateUI_settled city weather (searching_weather p)) as (u & r & U).
  rewrite U. cbn. destruct r as [err|[]]; reflexivity.
Qed.

Lemma bind_gets {S A B : Type} (f : S -> A) (k : A -> action S B) (s : S) :
  bind (gets f) k s = k (f s) s.
Proof. reflexivity. Qed.

Lemma bind_modify {S B : Type} (f : S -> S) (k : unit -> action S B) (s : S) :
  bind (modify f) k s = k tt (f s).
Proof. reflexivity. Qed.

Lemma bind_ret {S A B : Type} (a : A) (k : A -> action S B) (s : S) :
  bind (ret a) k s = k a s.
Proof. reflexivity. Qed.

Lemma onDOMContentLoaded_run (net : network) (p : page) :
  let start :=
    if String.eqb (input_value p) "" then with_input_value defaultCity p else p in
  requests net (onDOMContentLoaded p) = requests net (handleSearch start) /\
  run net (onDOMContentLoaded p)
  = (with_defaultPrevented (defaultPrevented p) (fst (run net (handleSearch start))),
     snd (run net (handleSearch start))).
Proof.
  unfold onDOMContentLoaded. rewrite bind_gets.
  destruct (input_value p) as [|a v] eqn:V.
  - change (negb (ToBoolean (VString ""))) with true. cbv iota.
    rewrite bind_modify. unfold dispatch_submit.
    rewrite requests_and_then, run_and_then. cbv beta iota. cbn [String.eqb].
    destruct (run net (handleSearch (with_input_value defaultCity p))) as [q r].
    split; [apply List.app_nil_r|reflexivity].
  - change (negb (ToBoolean (VString (String a v)))) with false. cbv iota.
    rewrite bind_ret. unfold dispatch_submit.
    rewrite requests_and_then, run_and_then. cbv beta iota. cbn [String.eqb].
    destruct (run net (handleSearch p)) as [q r].
    split; [apply List.app_nil_r|reflexivity].
Qed.

(** X11.  On load, an empty input is filled with ["São Paulo"] and that
    city is searched: the first request is the geocoding request for it.
    An input that is not empty is left as it is and searched as a
    submission of it would be; when it holds white space only, it is not
    replaced by the default city and nothing is requested.  The input
    ends as the default city or as it was. *)
Theorem onDOMContentLoaded_searches (net : network) (p : page) :
  (input_value p = "" ->
   input_value (fst (run net (onDOMContentLoaded p))) = "São Paulo" /\
   exists req more,
     geocode_request (VString "São Paulo") = inr req /\
     requests net (onDOMContentLoaded p) = req :: more) /\
  (input_value p <> "" ->
   input_value (fst (run net (onDOMContentLoaded p))) = input_value p /\
   requests net (onDOMContentLoaded p) = requests net (handleSearch p)) /\
  (input_value p <> "" -> trim (input_value p) = "" ->
   requests net (onDOMContentLoaded p) = []).
Proof.
  destruct (onDOMContentLoaded_run net p) as [Q R]. cbv zeta in Q, R.
  rewrite R, Q. cbn [fst].
  change (input_value (with_defaultPrevented (defaultPrevented p) ?q))
    with (input_value q).
  split; [|split].
  - intros E. rewrite E. cbn [String.eqb].
    split; [rewrite handleSearch_input; reflexivity|].
    assert (N : trim (input_value (with_input_value defaultCity p)) <> "")
      by (vm_compute; discriminate).
    rewrite (handleSearch_requests net _ N), geocodeCity_requests.
    change (trim (input_value (with_input_value defaultCity p))) with "São Paulo".
    rewrite geocode_request_text. eexists. eexists. split; reflexivity.
  - intros N. destruct (String.eqb_spec (input_value p) ""); [contradiction|].
    split; [apply handleSearch_input|reflexivity].
  - intros N T. destruct (String.eqb_spec (input_value p) ""); [contradiction|].
    rewrite (handleSearch_empty p T). reflexivity.
Qed.

End Payloads.

Section Composition.
Context `{Engine}.

(** X12.  Submitting again changes nothing: after a submission that ends
    displaying (the weather section shown), a second one of the same
    input on the same network ends in the very same page. *)
Theorem handleSearch_again (net : network) (p : page) :
  trim (input_value p) <> "" ->
  let p' := fst (run net (handleSearch p)) in
  weather_hidden p' = false ->
  run net (handleSearch p') = (p', inr tt).
Proof.
  intros N p' D. unfold p' in *. clear p'.
  rewrite (handleSearch_run net p N) in *. cbv zeta in *.
  destruct (completion net (geocodeCity _)) as [err|city] eqn:G; [discriminate D|].
  destruct (completion net (getWeather _ _ _)) as [err|weather] eqn:W; [discriminate D|].
  destruct (updateUI_settled city weather (searching_weather p)) as (u & r & U).
  rewrite U in *. cbn [run] in *. destruct r as [err|[]]; [discriminate D|].
  cbn [fst]. apply updateUI_returns in U. destruct U as (Nw & Nc & u' & R & E).
  apply (f_equal ui) in E. cbn in E. subst u'.
  set (q := displaying _).
  assert (I : input_value q = input_value p) by reflexivity.
  assert (N' : trim (input_value q) <> "") by (rewrite I; exact N).
  rewrite (handleSearch_run net q N'). cbv zeta. rewrite I, G, W.
  pose proof (updateUI_rendered city weather (searching_weather q) Nw Nc) as V.
  rewrite R in V. rewrite V. reflexivity.
Qed.

(** X13.  [formatNumber] rounds a half towards +Infinity, below zero as
    above: a finite Number that is an integer [z] and a half is shown as
    [z + 1], so that -2.5 reads ["-2"] and 2.5 reads ["3"]. *)
Theorem formatNumber_half_up (x : number) (z : Z) (unit : string) :
  is_finite x = true ->
  toQ x == inject_Z z + (1 # 2) ->
  (Z.abs (z + 1) <= MAX_SAFE_INTEGER)%Z ->
  formatNumber (VNumber x) unit = inr (showZ (z + 1) ++ unit).
Proof.
  intros F E B. destruct x as [s|s| |s m e]; try discriminate F.
  { exfalso. simpl toQ in E. unfold Qeq in E. simpl in E. lia. }
  destruct (Math_round_finite s m e) as (r & L & U & _ & P). cbv zeta in L, U.
  assert (R : r = (z + 1)%Z).
  { rewrite E in L, U.
    assert (A : inject_Z r <= inject_Z z + 1) by lra.
    assert (C : inject_Z z < inject_Z r) by lra.
    unfold Qle, Qlt in A, C. simpl in A, C. lia. }
  subst r.
  change (formatNumber (VNumber (S754_finite s m e)) unit)
    with (@inr exn string (Number_toString (Math_round (S754_finite s m e)) ++ unit)).
  rewrite (P B). reflexivity.
Qed.

(** X14.  What a key missing from [current] shows, on a payload that is
    displayed.  A missing (or [null]) temperature, wind speed, humidity,
    apparent temperature, pressure or cloud cover shows the placeholder
    alone, without its unit; a missing precipitation shows ["— mm"], a
    missing wind direction ["(—°)"], a missing time ["Atualizado: —"],
    and a missing weather code ["Código undefined"].  A payload whose
    [current] is an empty object is displayed. *)
Theorem updateUI_missing_keys (city : place) (weather : value) (p : page) :
  renderable weather = true ->
  let current := field weather "current" in
  exists p', updateUI city weather p = Return (p', inr tt) /\
    (nullish (field current "temperature_2m") = true -> temp (ui p') = "—") /\
    (nullish (field current "relative_humidity_2m") = true -> humidity (ui p') = "—") /\
    (nullish (field current "apparent_temperature") = true -> apparent (ui p') = "—") /\
    (nullish (field current "pressure_msl") = true -> pressure (ui p') = "—") /\
    (nullish (field current "cloud_cover") = true -> cloud (ui p') = "—") /\
    (nullish (field current "wind_speed_10m") = true ->
     nullish (field current "wind_direction_10m") = true ->
     wind (ui p') = "— (—°)") /\
    (nullish (field current "precipitation") = true -> precip (ui p') = "— mm") /\
    (nullish (field current "time") = true -> obsTime (ui p') = "Atualizado: —") /\
    (field current "weather_code" = VUndefined -> code (ui p') = "Código undefined") /\
    (field current "weather_code" = VNull -> code (ui p') = "Código null") /\
    (forall zone : value,
       renderable (VObject [ ("timezone", zone); ("current", VObject []) ]) = true).
Proof.
  intros B current.
  apply (renderable_rendered city) in B. destruct B as (W & C & u & R).
  pose proof (updateUI_rendered city weather p W C) as U. rewrite R in U.
  destruct (rendered_fields city weather u R)
    as (time & d & pr & speed
        & E1 & E2 & E3 & E4 & E5 & E6 & E7 & E8 & E9 & E10 & L & O & Wi & P).
  fold current in E1, E2, E3, E4, E5, E6, E7, E8, E9, E10.
  exists (map_ui (fun _ => u) p). split; [exact U|].
  change (ui (map_ui (fun _ => u) p)) with u.
  assert (F : forall v unit text, nullish v = true ->
                formatNumber v unit = inr text -> text = "—").
  { intros v unit text N. destruct v; try discriminate N; intros [= <-]; reflexivity. }
  split; [intros N; exact (F _ _ _ N E2)|].
  split; [intros N; exact (F _ _ _ N E6)|].
  split; [intros N; exact (F _ _ _ N E7)|].
  split; [intros N; exact (F _ _ _ N E8)|].
  split; [intros N; exact (F _ _ _ N E10)|].
  split.
  { intros S D. rewrite Wi, (F _ _ _ S E4).
    destruct (field current "wind_direction_10m"); try discriminate D;
      injection E5 as <-; reflexivity. }
  split.
  { intros N. rewrite N in E9. injection E9 as <-. exact P. }
  split.
  { intros N. rewrite O.
    destruct (field current "time"); try discriminate N; injection E1 as <-;
      reflexivity. }
  split.
  { intros N. rewrite N in E3. injection E3 as <-. reflexivity. }
  split.
  { intros N. rewrite N in E3. injection E3 as <-. reflexivity. }
  intros zone. reflexivity.
Qed.

End Composition.

(** * Concrete runs *)

(** The text of some Numbers, as every engine prints them. *)
Example Number_toString_samples :
  map Number_toString
    [ ofDecimal 3 10; ofDecimal 216 10; ofDecimal (-235475) 10000;
      ofDecimal 1 3; ofZ (10 ^ 21); ofDecimal 1 (10 ^ 7); ofDecimal 1 (10 ^ 6);
      ofZ (2 ^ 60); ofZ (- 42); S754_zero true;
      S754_finite false 1 (-1074); S754_finite false (2 ^ 53 - 1) 971 ]
  = [ "0.3"; "21.6"; "-23.5475";
      "0.3333333333333333"; "1e+21"; "1e-7"; "0.000001";
      "1152921504606847000"; "-42"; "0";
      "5e-324"; "1.7976931348623157e+308" ].
Proof. vm_compute. reflexivity. Qed.

(** [Math.round] on halves and near zero: -2.5, 2.5, -0.4 and 0.5. *)
Example Math_round_samples :
  map Math_round
    [ ofDecimal (-25) 10; ofDecimal 25 10; ofDecimal (-4) 10; ofDecimal 5 10 ]
  = [ ofZ (-2); ofZ 3; S754_zero true; ofZ 1 ].
Proof. vm_compute. reflexivity. Qed.

(** The sample Numbers are binary64 encodings. *)
Example sample_numbers_valid :
  forallb (valid_binary prec emax)
    [ ofDecimal 216 10; ofDecimal 3 10; ofDecimal (-235475) 10000; ofZ 78;
      ofZ 0; ofZ (2 ^ 53 - 1) ]
  = true.
Proof. vm_compute. reflexivity. Qed.

(** [trim] removes white space at both ends, a no-break space included. *)
Example trim_samples :
  map trim [ "  São Paulo  "; "   "; ""; "a b"; String (ascii_of_nat 194)
             (String (ascii_of_nat 160) "Rio") ]
  = [ "São Paulo"; ""; ""; "a b"; "Rio" ].
Proof. vm_compute. reflexivity. Qed.

(** The text of some values: an array joins its elements, an object
    without a property [toString] reads ["[object Object]"], and one with
    it has no text, nor has an array that holds it. *)
Example ToString_samples :
  map ToString
    [ VArray [ VNumber (ofZ 1); VNull; VArray [ VString "a"; VString "b" ] ];
      VArray []; VObject [ ("valueOf", VNull) ]; VBool true;
      Sample.opaque; VArray [ VNumber (ofZ 1); Sample.opaque ] ]
  = [ inr "1,,a,b"; inr ""; inr "[object Object]"; inr "true";
      inl (NotConvertible Sample.opaque); inl (NotConvertible Sample.opaque) ].
Proof. vm_compute. reflexivity. Qed.

(** Day, month, hour and minute of some time values: the first instant,
    the minute before it, a leap day, and the sample instant in UTC. *)
Example day_month_hour_minute_samples :
  map (@day_month_hour_minute Sample.engine)
    [ 0%Z; (-60000)%Z; 1709249400000%Z; 1793612700000%Z ]
  = [ "01/01, 00:00"; "31/12, 23:59"; "29/02, 23:30"; "02/11, 09:45" ].
Proof. vm_compute. reflexivity. Qed.

(** A whole submission against the sample network. *)
Example handleSearch_sample_run :
  run Sample.net (@handleSearch Sample.engine (Sample.page_with " São Paulo "))
  = ({| input_value := " São Paulo ";
        status_textContent := "";
        status_className := "status info";
        weather_hidden := false;
        ui := {| location := "São Paulo, SP - Brazil";
                 obsTime := "Atualizado: 02/11, 06:45";
                 temp := "22°C";
                 code := "Nublado";
                 wind := "7 km/h (—°)";
                 humidity := "78%";
                 apparent := "22°C";
                 pressure := "1016 hPa";
                 precip := "0.3 mm";
                 cloud := "100%" |};
        console := [];
        defaultPrevented := true |}, inr tt).
Proof. vm_compute. reflexivity. Qed.

(** A submission whose first result has a latitude without a text: the
    weather is not asked for, and the TypeError of the conversion is the
    status. *)
Example handleSearch_opaque_latitude_run :
  let body :=
    VObject [ ("results",
               VArray [ VObject [ ("name", VString "Nowhere");
                                  ("latitude", Sample.opaque) ] ]) ] in
  let net := fun _ : request => Sample.fulfilled body in
  let p := Sample.page_with "Nowhere" in
  List.length (requests net (@handleSearch Sample.engine p)) = 1%nat /\
  status_textContent (fst (run net (@handleSearch Sample.engine p)))
  = "Cannot convert object to primitive value" /\
  weather_hidden (fst (run net (@handleSearch Sample.engine p))) = true.
Proof. cbv zeta. repeat split; vm_compute; reflexivity. Qed.

(** The sample geocoding response gives the sample place. *)
Lemma geocodeCity_first_result_witness :
  let query := VString "São Paulo" in
  exists req, geocode_request query = inr req /\
    Sample.net req = Arrived {| ok := true; json := JSON Sample.geocoding_body |} /\
    get Sample.geocoding_body "results" = inr (VArray [Sample.sao_paulo]) /\
    nullish Sample.sao_paulo = false /\
    ToString (field Sample.sao_paulo "name") = inr "São Paulo" /\
    segment ", " (field Sample.sao_paulo "admin1") = inr ", SP" /\
    segment " - " (field Sample.sao_paulo "country") = inr " - Brazil" /\
    completion Sample.net (geocodeCity query) = inr Sample.city.
Proof.
  cbv zeta. eexists. split; [reflexivity|].
  split; [reflexivity|]. split; [reflexivity|]. split; [reflexivity|].
  split; [reflexivity|]. split; [reflexivity|]. split; [reflexivity|].
  exact (proj1 geocodeCity_first_result Sample.net (VString "São Paulo")
           Sample.geocoding_body Sample.sao_paulo _ [] "São Paulo" ", SP" " - Brazil"
           eq_refl eq_refl eq_refl eq_refl eq_refl eq_refl eq_refl).
Defined.

(** Code 100 is no key of the table. *)
Lemma weather_code_lookup_total_witness :
  (Z.abs 100 <= MAX_SAFE_INTEGER)%Z /\
  @weather_code_text Sample.engine (VNumber (ofZ 100)) = inr "Código 100".
Proof.
  assert (B : (Z.abs 100 <= MAX_SAFE_INTEGER)%Z) by (vm_compute; discriminate).
  split; [exact B|].
  exact (proj1 (proj2 (@weather_code_lookup_total Sample.engine)) 100%Z B).
Defined.

(** 21.6 rounds to 22. *)
Lemma formatNumber_rounds_witness :
  is_finite (ofDecimal 216 10) = true /\
  exists r : Z,
    inject_Z r <= toQ (ofDecimal 216 10) + (1 # 2) /\
    toQ (ofDecimal 216 10) + (1 # 2) < inject_Z r + 1 /\
    toQ (Math_round (ofDecimal 216 10)) == inject_Z r /\
    ((Z.abs r <= MAX_SAFE_INTEGER)%Z ->
     @formatNumber Sample.engine (VNumber (ofDecimal 216 10)) "°C"
     = inr (showZ r ++ "°C")).
Proof.
  split; [reflexivity|].
  exact (proj1 (proj2 (proj2 (@formatNumber_rounds Sample.engine)))
           (ofDecimal 216 10) "°C" eq_refl).
Defined.

(** A response without [results] is a NotFoundError. *)
Lemma geocodeCity_outcomes_witness :
  let query := VString "Atlantis" in
  exists req, geocode_request query = inr req /\
    zero_results (Sample.net_no_match req) /\
    exists e, completion Sample.net_no_match (geocodeCity query) = inl e /\
              NotFoundError e.
Proof.
  cbv zeta. eexists. split; [reflexivity|].
  pose proof (geocodeCity_outcomes Sample.net_no_match (VString "Atlantis") _ eq_refl)
    as O.
  cbv zeta in O. destruct O as (N & _ & _ & Z & _).
  assert (Zero : zero_results
                   (Sample.net_no_match
                      {| url := "https://geocoding-api.open-meteo.com/v1/search";
                         searchParams := [("name", "Atlantis"); ("language", "pt");
                                          ("count", "1")];
                         headers := accept_json |})).
  { eexists. split; [reflexivity|]. left. reflexivity. }
  split; [exact Zero|].
  exact (proj2 N (Z Zero)).
Defined.

(** A query of three spaces changes nothing. *)
Lemma handleSearch_empty_query_witness :
  let p := Sample.page_with "   " in
  trim (input_value p) = "" /\
  requests Sample.net (@handleSearch Sample.engine p) = [].
Proof.
  cbv zeta. split; [reflexivity|].
  exact (proj1 (proj1 (@handleSearch_empty_query Sample.engine)
                  Sample.net (Sample.page_with "   ") eq_refl)).
Defined.

(** A city the endpoint does not know. *)
Lemma handleSearch_failure_witness :
  let p := Sample.page_with "Atlantis" in
  let p' := fst (run Sample.net_no_match (@handleSearch Sample.engine p)) in
  trim (input_value p) <> "" /\
  completion Sample.net_no_match (geocodeCity (VString (trim (input_value p))))
  = inl (Error "Cidade não encontrada") /\
  status_textContent p' = "Cidade não encontrada" /\
  status_className p' = "status error" /\
  weather_hidden p' = true /\
  ui p' = ui p.
Proof.
  cbv zeta.
  assert (N : trim (input_value (Sample.page_with "Atlantis")) <> "")
    by (vm_compute; discriminate).
  assert (G : completion Sample.net_no_match
                (geocodeCity (VString (trim (input_value (Sample.page_with "Atlantis")))))
              = inl (Error "Cidade não encontrada")) by reflexivity.
  pose proof (@handleSearch_failure Sample.engine Sample.net_no_match
                (Sample.page_with "Atlantis") (Error "Cidade não encontrada")
                N (or_introl G)) as F.
  cbv zeta in F. destruct F as (_ & _ & T & C & W & U & _).
  split; [exact N|]. split; [exact G|]. split; [exact (T eq_refl)|].
  split; [exact C|]. split; [exact W|exact U].
Defined.

(** The sample payload on a blank page. *)
Lemma updateUI_fields_witness :
  renderable Sample.weather_body = true /\
  exists p',
    @updateUI Sample.engine Sample.city Sample.weather_body (Sample.page_with "São Paulo")
    = Return (p', inr tt) /\
    location (ui p') = "São Paulo, SP - Brazil" /\
    @formatNumber Sample.engine (VNumber (ofDecimal 216 10)) "°C" = inr (temp (ui p')) /\
    @weather_code_text Sample.engine (VNumber (ofZ 3)) = inr (code (ui p')) /\
    exists text,
      ToString (VNumber (ofDecimal 3 10)) = inr text /\ precip (ui p') = text ++ " mm".
Proof.
  assert (R : renderable Sample.weather_body = true) by (vm_compute; reflexivity).
  split; [exact R|].
  destruct (@updateUI_fields Sample.engine Sample.city Sample.weather_body
              (Sample.page_with "São Paulo") R)
    as (p' & U & L & _ & T & C & _ & _ & _ & _ & P & _).
  exists p'. split; [exact U|]. split; [exact L|]. split; [exact T|].
  split; [exact C|].
  exact (P eq_refl).
Defined.


(** A known instant in a known time zone, and a time zone [Intl] refuses. *)
Lemma formatTimeISOToLocal_cases_witness :
  "2026-11-02T06:45" <> "" /\
  @Date_parse Sample.engine "2026-11-02T06:45" = Some 1793612700000%Z /\
  (exists offset,
     @time_zone Sample.engine (VString "America/Sao_Paulo") = Some offset /\
     offset 1793612700000%Z = (-10800000)%Z) /\
  @formatTimeISOToLocal Sample.engine (VString "2026-11-02T06:45")
    (VString "America/Sao_Paulo") = VString "02/11, 06:45" /\
  @time_zone Sample.engine (VString "Mars/Olympus") = None /\
  @formatTimeISOToLocal Sample.engine (VString "2026-11-02T06:45")
    (VString "Mars/Olympus") = VString "2026-11-02T06:45".
Proof.
  assert (N : "2026-11-02T06:45" <> "") by discriminate.
  split; [exact N|]. split; [reflexivity|].
  split; [eexists; split; reflexivity|].
  split.
  - exact (proj1 (proj2 (@formatTimeISOToLocal_cases Sample.engine))
             "2026-11-02T06:45" (VString "America/Sao_Paulo") 1793612700000%Z
             (fun _ => (-10800000)%Z) N eq_refl eq_refl).
  - split; [reflexivity|].
    exact (proj2 (proj2 (proj2 (proj2 (proj2 (@formatTimeISOToLocal_cases Sample.engine)))))
             "2026-11-02T06:45" (VString "Mars/Olympus") 1793612700000%Z N
             eq_refl eq_refl).
Defined.

(** The two requests of a successful submission, in order. *)
Lemma weather_after_geocoding_witness :
  let p := Sample.page_with " São Paulo " in
  trim (input_value p) <> "" /\
  exists req asked,
    geocode_request (VString "São Paulo") = inr req /\
    weather_request (latitude Sample.city) (longitude Sample.city)
      (timezone Sample.city) = inr asked /\
    requests Sample.net (@handleSearch Sample.engine p) = [ req; asked ].
Proof.
  cbv zeta.
  assert (N : trim (input_value (Sample.page_with " São Paulo ")) <> "")
    by (vm_compute; discriminate).
  split; [exact N|].
  destruct (@weather_after_geocoding Sample.engine Sample.net
              (Sample.page_with " São Paulo ") N) as (req & Q & _ & R).
  exists req. eexists. split; [exact Q|]. split; [vm_compute; reflexivity|].
  exact R.
Defined.

(** A wind from due north. *)
Lemma wind_direction_zero_is_placeholder_witness :
  reaches_wind Sample.weather_body = true /\
  field (field Sample.weather_body "current") "wind_direction_10m"
  = VNumber (S754_zero false) /\
  exists p',
    @updateUI Sample.engine Sample.city Sample.weather_body (Sample.page_with "São Paulo")
    = Return (p', inr tt) /\
    exists speed,
      @formatNumber Sample.engine (VNumber (ofDecimal 72 10)) " km/h" = inr speed /\
      wind (ui p') = speed ++ " (—°)".
Proof.
  assert (R : reaches_wind Sample.weather_body = true) by (vm_compute; reflexivity).
  split; [exact R|]. split; [reflexivity|].
  destruct (@wind_direction_zero_is_placeholder Sample.engine Sample.city
              Sample.weather_body (Sample.page_with "São Paulo") (S754_zero false)
              R eq_refl)
    as (p' & r & speed & U & S & Z & _ & D).
  exists p'. rewrite (D ltac:(vm_compute; reflexivity)) in U.
  split; [exact U|]. exists speed. split; [exact S|].
  exact (Z (ex_intro _ false eq_refl)).
Defined.

(** ** Runs for the further properties *)

(** A status 503 from the weather endpoint, and a latitude without a
    text. *)
Lemma getWeather_outcomes_witness :
  (exists req, weather_request VNull VNull VNull = inr req /\
     (exists res, Sample.net_refused req = Arrived res /\ ok res = false) /\
     completion Sample.net_refused (getWeather VNull VNull VNull)
     = inl (Error "Falha ao buscar clima")) /\
  weather_request Sample.opaque VNull VNull = inl (NotConvertible Sample.opaque) /\
  requests Sample.net (getWeather Sample.opaque VNull VNull tt) = [].
Proof.
  split.
  - eexists. split; [reflexivity|].
    assert (R : exists res,
               Sample.net_refused
                 {| url := "https://api.open-meteo.com/v1/forecast";
                    searchParams :=
                      set_param "current" (String.concat "," current_fields)
                        (set_param "timezone" "auto"
                           (set_param "longitude" "null"
                              (set_param "latitude" "null" [])));
                    headers := accept_json |} = Arrived res
               /\ ok res = false) by (eexists; split; reflexivity).
    split; [exact R|].
    exact (proj2 (proj1 (proj2 (proj2 (getWeather_outcomes Sample.net_refused
                                          VNull VNull VNull)) _ eq_refl)) R).
  - split; [reflexivity|].
    exact (proj1 (proj2 (proj1 (proj2 (getWeather_outcomes Sample.net
                                          Sample.opaque VNull VNull))
                           _ eq_refl))).
Defined.

(** A first result that is an empty object. *)
Lemma geocodeCity_unchecked_fields_witness :
  let data := VObject [ ("results", VArray [ VObject [] ]) ] in
  let net := fun _ : request => Sample.fulfilled data in
  nullish (VObject []) = false /\ nameable (VObject []) = true /\
  exists found,
    completion net (geocodeCity (VString "x")) = inr found /\
    name found = "undefined" /\ latitude found = VUndefined.
Proof.
  cbv zeta. split; [reflexivity|]. split; [reflexivity|].
  destruct (geocodeCity_unchecked_fields
              (fun _ => Sample.fulfilled (VObject [ ("results", VArray [ VObject [] ]) ]))
              (VString "x") (VObject [ ("results", VArray [ VObject [] ]) ])
              (VObject []) _ [] eq_refl eq_refl eq_refl eq_refl eq_refl)
    as (found & C & La & _ & _ & Nm).
  exists found. split; [exact C|]. split; [exact (Nm eq_refl eq_refl eq_refl)|exact La].
Defined.

(** Codes 3 and 45 read differently. *)
Lemma weather_code_text_injective_witness :
  (Z.abs 3 <= MAX_SAFE_INTEGER)%Z /\ (Z.abs 45 <= MAX_SAFE_INTEGER)%Z /\
  @weather_code_text Sample.engine (VNumber (ofZ 3))
  <> @weather_code_text Sample.engine (VNumber (ofZ 45)).
Proof.
  assert (A : (Z.abs 3 <= MAX_SAFE_INTEGER)%Z) by (vm_compute; discriminate).
  assert (B : (Z.abs 45 <= MAX_SAFE_INTEGER)%Z) by (vm_compute; discriminate).
  split; [exact A|]. split; [exact B|].
  intros E.
  pose proof (@weather_code_text_injective Sample.engine 3%Z 45%Z A B E) as D.
  discriminate D.
Defined.

(** -0.3 degrees. *)
Lemma formatNumber_no_negative_zero_witness :
  is_finite (ofDecimal (-3) 10) = true /\
  - (1 # 2) <= toQ (ofDecimal (-3) 10) /\ toQ (ofDecimal (-3) 10) < 1 # 2 /\
  @formatNumber Sample.engine (VNumber (ofDecimal (-3) 10)) "°C" = inr "0°C".
Proof.
  assert (L : - (1 # 2) <= toQ (ofDecimal (-3) 10)) by (vm_compute; discriminate).
  assert (U : toQ (ofDecimal (-3) 10) < 1 # 2) by (vm_compute; reflexivity).
  split; [reflexivity|]. split; [exact L|]. split; [exact U|].
  exact (@formatNumber_no_negative_zero Sample.engine (ofDecimal (-3) 10) "°C"
           eq_refl L U).
Defined.


(** The sample submission ends displaying. *)
Lemma handleSearch_displays_witness :
  let p := Sample.page_with " São Paulo " in
  trim (input_value p) <> "" /\
  renderable Sample.weather_body = true /\
  status_textContent (fst (run Sample.net (@handleSearch Sample.engine p))) = "" /\
  weather_hidden (fst (run Sample.net (@handleSearch Sample.engine p))) = false.
Proof.
  cbv zeta.
  assert (N : trim (input_value (Sample.page_with " São Paulo ")) <> "")
    by (vm_compute; discriminate).
  assert (R : renderable Sample.weather_body = true) by (vm_compute; reflexivity).
  split; [exact N|]. split; [exact R|].
  destruct (@handleSearch_displays Sample.engine Sample.net
              (Sample.page_with " São Paulo ") Sample.city Sample.weather_body
              N eq_refl eq_refl R) as (u & _ & E).
  rewrite E. split; reflexivity.
Defined.

(** The sample city with a payload that has no [current]. *)
Lemma handleSearch_unreadable_payload_witness :
  let p := Sample.page_with "São Paulo" in
  let net := Sample.net_with_weather Sample.no_current in
  let p' := fst (run net (@handleSearch Sample.engine p)) in
  trim (input_value p) <> "" /\
  weather_hidden p' = true /\
  location (ui p') = "São Paulo, SP - Brazil" /\
  temp (ui p') = "—" /\
  status_textContent p' = "Cannot read properties of undefined (reading 'time')".
Proof.
  cbv zeta.
  assert (N : trim (input_value (Sample.page_with "São Paulo")) <> "")
    by (vm_compute; discriminate).
  destruct (proj2 (@handleSearch_unreadable_payload Sample.engine
                     (Sample.net_with_weather Sample.no_current)
                     (Sample.page_with "São Paulo") Sample.city Sample.no_current
                     N eq_refl eq_refl) eq_refl eq_refl)
    as (_ & T & _ & W & U).
  split; [exact N|]. split; [exact W|].
  split; [rewrite U; reflexivity|]. split; [rewrite U; reflexivity|].
  rewrite T. reflexivity.
Defined.

(** No connection: the submission ends failed. *)
Lemma handleSearch_ends_witness :
  let p := Sample.page_with "Lisboa" in
  let p' := fst (run Sample.net_down (@handleSearch Sample.engine p)) in
  trim (input_value p) <> "" /\
  weather_hidden p' = true /\ status_className p' = "status error".
Proof.
  cbv zeta.
  assert (N : trim (input_value (Sample.page_with "Lisboa")) <> "")
    by (vm_compute; discriminate).
  split; [exact N|].
  destruct (@handleSearch_ends Sample.engine Sample.net_down (Sample.page_with "Lisboa"))
    as (_ & _ & E).
  destruct (E N) as [(W & _)|(W & C & _)].
  - discriminate W.
  - split; [exact W|exact C].
Defined.

(** The requests of the sample submission. *)
Lemma weather_request_of_first_result_witness :
  let p := Sample.page_with " São Paulo " in
  trim (input_value p) <> "" /\
  nameable Sample.sao_paulo = true /\
  exists req asked,
    geocode_request (VString "São Paulo") = inr req /\
    weather_request (field Sample.sao_paulo "latitude")
      (field Sample.sao_paulo "longitude") (field Sample.sao_paulo "timezone")
    = inr asked /\
    requests Sample.net (@handleSearch Sample.engine p) = [ req; asked ] /\
    lookup "timezone" (searchParams asked) = Some "America/Sao_Paulo".
Proof.
  cbv zeta.
  assert (N : trim (input_value (Sample.page_with " São Paulo ")) <> "")
    by (vm_compute; discriminate).
  split; [exact N|]. split; [reflexivity|].
  eexists. eexists. split; [reflexivity|]. split; [vm_compute; reflexivity|].
  destruct (proj2 (@weather_request_of_first_result Sample.engine Sample.net
                     (Sample.page_with " São Paulo ") Sample.geocoding_body
                     Sample.sao_paulo _ [] N eq_refl eq_refl eq_refl eq_refl eq_refl)
              _ ltac:(vm_compute; reflexivity))
    as (R & _ & _ & _ & _ & T).
  split; [exact R|].
  destruct (T eq_refl) as (text & E & L). injection E as <-. exact L.
Defined.

(** A page loaded with an empty input. *)
Lemma onDOMContentLoaded_searches_witness :
  input_value (Sample.page_with "") = "" /\
  input_value (fst (run Sample.net
                      (@onDOMContentLoaded Sample.engine (Sample.page_with ""))))
  = "São Paulo".
Proof.
  split; [reflexivity|].
  exact (proj1 (proj1 (@onDOMContentLoaded_searches Sample.engine Sample.net
                         (Sample.page_with "")) eq_refl)).
Defined.

(** The sample submission, twice. *)
Lemma handleSearch_again_witness :
  let p := Sample.page_with " São Paulo " in
  let p' := fst (run Sample.net (@handleSearch Sample.engine p)) in
  trim (input_value p) <> "" /\
  weather_hidden p' = false /\
  run Sample.net (@handleSearch Sample.engine p') = (p', inr tt).
Proof.
  cbv zeta.
  assert (N : trim (input_value (Sample.page_with " São Paulo ")) <> "")
    by (vm_compute; discriminate).
  assert (D : weather_hidden
                (fst (run Sample.net
                        (@handleSearch Sample.engine (Sample.page_with " São Paulo "))))
              = false) by (vm_compute; reflexivity).
  split; [exact N|]. split; [exact D|].
  exact (@handleSearch_again Sample.engine Sample.net
           (Sample.page_with " São Paulo ") N D).
Defined.

(** -2.5 degrees. *)
Lemma formatNumber_half_up_witness :
  is_finite (ofDecimal (-25) 10) = true /\
  toQ (ofDecimal (-25) 10) == inject_Z (-3) + (1 # 2) /\
  (Z.abs (-3 + 1) <= MAX_SAFE_INTEGER)%Z /\
  @formatNumber Sample.engine (VNumber (ofDecimal (-25) 10)) "°C" = inr "-2°C".
Proof.
  assert (E : toQ (ofDecimal (-25) 10) == inject_Z (-3) + (1 # 2))
    by (vm_compute; reflexivity).
  assert (B : (Z.abs (-3 + 1) <= MAX_SAFE_INTEGER)%Z) by (vm_compute; discriminate).
  split; [reflexivity|]. split; [exact E|]. split; [exact B|].
  exact (@formatNumber_half_up Sample.engine (ofDecimal (-25) 10) (-3)%Z "°C"
           eq_refl E B).
Defined.

(** A payload whose [current] is empty. *)
Lemma updateUI_missing_keys_witness :
  renderable Sample.empty_current = true /\
  exists p',
    @updateUI Sample.engine Sample.city Sample.empty_current (Sample.page_with "São Paulo")
    = Return (p', inr tt) /\
    temp (ui p') = "—" /\ precip (ui p') = "— mm" /\ wind (ui p') = "— (—°)" /\
    code (ui p') = "Código undefined".
Proof.
  split; [reflexivity|].
  destruct (@updateUI_missing_keys Sample.engine Sample.city Sample.empty_current
              (Sample.page_with "São Paulo") eq_refl)
    as (p' & R & T & _ & _ & _ & _ & W & P & _ & C & _).
  exists p'. split; [exact R|]. split; [exact (T eq_refl)|].
  split; [exact (P eq_refl)|]. split; [exact (W eq_refl eq_refl)|exact (C eq_refl)].
Defined.
